(** * Shallow embedding of the messaging request handler and of the tenant
      configuration object.

    The development follows the two source files:
    - the request handler of the messaging module ([Module Messaging]):
      [invokeRequestHandler], the two [...ForSendResponse] operations,
      [sendBatchRequest] and the two private response builders;
    - [src/auth/tenant.ts] ([Module Auth]): [buildServerRequest],
      [validate], [getTenantIdFromResourceName] and the constructor.

    JavaScript values are an inductive type, promises are modelled by their
    outcome (resolved with a value or rejected with a thrown value), and a
    synchronous call by its completion (return or throw).  The collaborators
    that live outside the two files (transport clients, batch client, error
    classifier, the validators and builders of [auth-config]) are section
    variables.  The definitions of both modules come first, the theorems
    about them follow in [MessagingProofs] and [AuthProofs]. *)

From Stdlib Require Import ZArith Bool Lia Ascii String.
From stdpp Require Import base list strings gmap.

Set Warnings "-register-all".

Open Scope Z_scope.
Open Scope string_scope.

(** ** JavaScript values *)

(** Numbers are restricted to the integer-valued ones (status codes, counts,
    timeouts); strings are sequences of code units below 256. *)
Inductive JsValue : Type :=
| JUndefined
| JNull
| JBool (b : bool)
| JNum (n : Z)
| JStr (s : string)
| JArr (items : list JsValue)
| JObj (fields : list (string * JsValue)).

(** [typeof v !== 'undefined'] *)
Definition is_defined (v : JsValue) : bool :=
  match v with JUndefined => false | _ => true end.

(** The truthiness test of [if (v)], [!v], [!!v] and [v || w]. *)
Definition truthy (v : JsValue) : bool :=
  match v with
  | JUndefined | JNull => false
  | JBool b => b
  | JNum n => negb (Z.eqb n 0)
  | JStr s => negb (String.eqb s "")
  | JArr _ | JObj _ => true
  end.

(** Own property of an object literal, in insertion order. *)
Fixpoint own_property (fields : list (string * JsValue)) (key : string) : option JsValue :=
  match fields with
  | [] => None
  | (k, v) :: rest => if String.eqb k key then Some v else own_property rest key
  end.

(** [v.key] on a value that is known not to be [null] or [undefined]: a
    missing property reads as [undefined].  The built-in properties of
    strings and arrays ([length], indices) are not modelled; no key read by
    the sources is one of them. *)
Definition get (v : JsValue) (key : string) : JsValue :=
  match v with
  | JObj fields => default JUndefined (own_property fields key)
  | _ => JUndefined
  end.

Definition is_nullish (v : JsValue) : bool :=
  match v with JUndefined | JNull => true | _ => false end.

(** [a ?? b] *)
Definition nullish_coalesce (a b : JsValue) : JsValue :=
  if is_nullish a then b else a.

(** [a || b] *)
Definition logical_or (a b : JsValue) : JsValue :=
  if truthy a then a else b.

(** ** Completions *)

(** Completion of a synchronous call: it returns a value or throws. *)
Inductive Completion (E A : Type) : Type :=
| Return (a : A)
| Throw (err : E).
Arguments Return {E A} a.
Arguments Throw {E A} err.

Definition bind {E A B} (c : Completion E A) (k : A -> Completion E B) : Completion E B :=
  match c with Return a => k a | Throw err => Throw err end.

Notation "'let*' x ':=' c 'in' k" := (bind c (fun x => k))
  (at level 10, x name, c at level 100, k at level 200).

(** ** The messaging request handler *)

Module Messaging.

(** Modelled from the spec: the response of a transport client, declared in
    [utils/api-request], which is not among the sources.  It exposes
    [status], an integer, [data], the parsed JSON or the raw body, and
    [isJson()]. *)
Record RequestResponse : Type := {
  status : Z;
  data : JsValue;
  isJson : bool;
}.

(** Modelled from the spec: the transport error of [utils/api-request], an
    error object that wraps the response. *)
Record RequestResponseError : Type := { response : RequestResponse }.

(** Modelled from the spec: the normalized error, a stable error code and a
    message. *)
Record FirebaseError : Type := {
  code : string;
  message : string;
}.

(** What a [throw] can carry in this module: a transport error wrapping a
    response, an error that is already normalized, or the [TypeError] raised
    by reading a property of [null] or [undefined]. *)
Inductive Thrown : Type :=
| ThrownRequestResponseError (err : RequestResponseError)
| ThrownFirebaseError (err : FirebaseError)
| ThrownTypeError.

(** [err instanceof RequestResponseError] *)
Definition instanceofRequestResponseError (err : Thrown) : bool :=
  match err with ThrownRequestResponseError _ => true | _ => false end.

(** An error is in normalized form when it is a [FirebaseError]. *)
Definition normalized (err : Thrown) : bool :=
  match err with ThrownFirebaseError _ => true | _ => false end.

(** Outcome of a promise. *)
Inductive Promise (A : Type) : Type :=
| Resolved (a : A)
| Rejected (err : Thrown).
Arguments Resolved {A} a.
Arguments Rejected {A} err.

Definition settle {A} (c : Completion Thrown A) : Promise A :=
  match c with Return a => Resolved a | Throw err => Rejected err end.

(** [p.then(f)] *)
Definition then_ {A B} (p : Promise A) (f : A -> Completion Thrown B) : Promise B :=
  match p with
  | Resolved a => settle (f a)
  | Rejected err => Rejected err
  end.

(** [p.catch(h)] *)
Definition catch_ {A} (p : Promise A) (h : Thrown -> Completion Thrown A) : Promise A :=
  match p with
  | Resolved a => Resolved a
  | Rejected err => settle (h err)
  end.

(** [v.key] with the exception JavaScript raises on [null] and [undefined]. *)
Definition member (v : JsValue) (key : string) : Completion Thrown JsValue :=
  if is_nullish v then Throw ThrownTypeError else Return (get v key).

(** [array.map(f)] where the callback may throw: the first exception aborts
    the traversal. *)
Fixpoint map_ {A B} (f : A -> Completion Thrown B) (xs : list A) : Completion Thrown (list B) :=
  match xs with
  | [] => Return []
  | x :: rest =>
      let* y := f x in
      let* ys := map_ f rest in
      Return (y :: ys)
  end.

(** The per-item outcome of [messaging-api]: the builders assign
    [messageId] or [error], and [messageId] holds whatever the body carries
    under [name]. *)
Record SendResponse : Type := {
  success : bool;
  messageId : option JsValue;   (* [None]: the property was never assigned *)
  error : option FirebaseError;
}.

(** The aggregate outcome of [messaging-api]. *)
Record BatchResponse : Type := {
  responses : list SendResponse;
  successCount : Z;
  failureCount : Z;
}.

(** A property of a [SendResponse] is defined when reading it does not give
    [undefined]. *)
Definition messageId_defined (r : SendResponse) : bool :=
  match messageId r with Some v => is_defined v | None => false end.

Definition error_defined (r : SendResponse) : bool :=
  match error r with Some _ => true | None => false end.

(** The request description of the transport clients; its [data] property
    is the field [body] here, [data] being the field of the response. *)
Record HttpRequestConfig : Type := {
  method : string;
  url : string;
  body : JsValue;
  headers : list (string * string);
  timeout : Z;
}.

(** The request of the HTTP/2 client: the same fields and the session
    handler. *)
Record Http2RequestConfig (Http2SessionHandler : Type) : Type := {
  config : HttpRequestConfig;
  http2SessionHandler : Http2SessionHandler;
}.
Arguments config {_} _.
Arguments http2SessionHandler {_} _.

(* FCM backend constants *)
Definition FIREBASE_MESSAGING_TIMEOUT : Z := 15000.
Definition FIREBASE_MESSAGING_BATCH_URL : string := "https://fcm.googleapis.com/batch".
Definition FIREBASE_MESSAGING_HTTP_METHOD : string := "POST".

Section Handler.

(** The SDK and runtime versions that the header values embed. *)
Variables (sdkVersion nodeVersion : string).

Definition FIREBASE_MESSAGING_HEADERS : list (string * string) :=
  [ ("X-Firebase-Client", "fire-admin-node/" +:+ sdkVersion);
    ("X-Goog-Api-Client", "gl-node/" +:+ nodeVersion +:+ " fire-admin/" +:+ sdkVersion) ].

Definition LEGACY_FIREBASE_MESSAGING_HEADERS : list (string * string) :=
  [ ("X-Firebase-Client", "fire-admin-node/" +:+ sdkVersion);
    ("X-Goog-Api-Client", "gl-node/" +:+ nodeVersion +:+ " fire-admin/" +:+ sdkVersion);
    ("access_token_auth", "true") ].

(** The error classifier of [messaging-errors-internal]. *)
Variable createFirebaseError : RequestResponseError -> FirebaseError.
Variable getErrorCode : JsValue -> JsValue.

(** The transport clients and the batch client. *)
Variables (SubRequest Http2SessionHandler : Type).
Variable httpClient_send : HttpRequestConfig -> Promise RequestResponse.
Variable http2Client_send :
  Http2RequestConfig Http2SessionHandler -> Promise RequestResponse.
(** [new BatchRequestClient(httpClient, batchUrl, commonHeaders).send]. *)
Variable BatchRequestClient_send :
  (HttpRequestConfig -> Promise RequestResponse) -> string -> list (string * string) ->
  list SubRequest -> Promise (list RequestResponse).

(** The constructor: the batch client runs over the HTTP/1.1 client, with
    the batch URL and the default headers. *)
Definition batchClient_send : list SubRequest -> Promise (list RequestResponse) :=
  BatchRequestClient_send httpClient_send
    FIREBASE_MESSAGING_BATCH_URL FIREBASE_MESSAGING_HEADERS.

Definition invokeRequestHandler (host path : string) (requestData : JsValue)
  : Promise JsValue :=
  let request :=
    {| method := FIREBASE_MESSAGING_HTTP_METHOD;
       url := "https://" +:+ host +:+ path;
       body := requestData;
       headers := LEGACY_FIREBASE_MESSAGING_HEADERS;
       timeout := FIREBASE_MESSAGING_TIMEOUT |} in
  catch_
    (then_ (httpClient_send request) (fun response =>
       (* Send non-JSON responses to the catch() below *)
       if negb (isJson response) then
         Throw (ThrownRequestResponseError {| response := response |})
       else
         (* Check for backend errors in the response. *)
         let errorCode := getErrorCode (data response) in
         if truthy errorCode then
           Throw (ThrownRequestResponseError {| response := response |})
         else
           (* Return entire response. *)
           Return (data response)))
    (fun err =>
       match err with
       | ThrownRequestResponseError e => Throw (ThrownFirebaseError (createFirebaseError e))
       | _ => Throw err   (* Re-throw the error if it already has the proper format. *)
       end).

Definition buildSendResponse (response : RequestResponse) : Completion Thrown SendResponse :=
  let result := {| success := Z.eqb (status response) 200; messageId := None; error := None |} in
  if success result then
    let* name := member (data response) "name" in
    Return {| success := success result; messageId := Some name; error := error result |}
  else
    Return {| success := success result;
              messageId := messageId result;
              error := Some (createFirebaseError {| response := response |}) |}.

Definition buildSendResponseFromError (err : RequestResponseError) : SendResponse :=
  {| success := false; messageId := None; error := Some (createFirebaseError err) |}.

Definition invokeHttpRequestHandlerForSendResponse
    (host path : string) (requestData : JsValue) : Promise SendResponse :=
  let request :=
    {| method := FIREBASE_MESSAGING_HTTP_METHOD;
       url := "https://" +:+ host +:+ path;
       body := requestData;
       headers := LEGACY_FIREBASE_MESSAGING_HEADERS;
       timeout := FIREBASE_MESSAGING_TIMEOUT |} in
  catch_
    (then_ (httpClient_send request) (fun response => buildSendResponse response))
    (fun err =>
       match err with
       | ThrownRequestResponseError e => Return (buildSendResponseFromError e)
       | _ => Throw err   (* Re-throw the error if it already has the proper format. *)
       end).

Definition invokeHttp2RequestHandlerForSendResponse
    (host path : string) (requestData : JsValue)
    (http2SessionHandler : Http2SessionHandler) : Promise SendResponse :=
  let request :=
    {| config :=
         {| method := FIREBASE_MESSAGING_HTTP_METHOD;
            url := "https://" +:+ host +:+ path;
            body := requestData;
            headers := LEGACY_FIREBASE_MESSAGING_HEADERS;
            timeout := FIREBASE_MESSAGING_TIMEOUT |};
       http2SessionHandler := http2SessionHandler |} in
  catch_
    (then_ (http2Client_send request) (fun response => buildSendResponse response))
    (fun err =>
       match err with
       | ThrownRequestResponseError e => Return (buildSendResponseFromError e)
       | _ => Throw err   (* Re-throw the error if it already has the proper format. *)
       end).

Definition sendBatchRequest (requests : list SubRequest) : Promise BatchResponse :=
  catch_
    (then_
       (then_ (batchClient_send requests) (fun responses =>
          map_ (fun part => buildSendResponse part) responses))
       (fun responses =>
          let successCount := Z.of_nat (length (List.filter success responses)) in
          Return {| responses := responses;
                    successCount := successCount;
                    failureCount := Z.of_nat (length responses) - successCount |}))
    (fun err =>
       match err with
       | ThrownRequestResponseError e => Throw (ThrownFirebaseError (createFirebaseError e))
       | _ => Throw err   (* Re-throw the error if it already has the proper format. *)
       end).

(** The request description that the three single-send operations build. *)
Definition legacy_request (host path : string) (requestData : JsValue) : HttpRequestConfig :=
  {| method := FIREBASE_MESSAGING_HTTP_METHOD;
     url := "https://" +:+ host +:+ path;
     body := requestData;
     headers := LEGACY_FIREBASE_MESSAGING_HEADERS;
     timeout := FIREBASE_MESSAGING_TIMEOUT |}.

(** The [SendResponse] values that the operations of the handler hand to
    their callers: the result of a single send over either transport, and
    the items of a batch result. *)
Inductive produced : SendResponse -> Prop :=
| produced_http host path requestData r :
    invokeHttpRequestHandlerForSendResponse host path requestData = Resolved r ->
    produced r
| produced_http2 host path requestData session r :
    invokeHttp2RequestHandlerForSendResponse host path requestData session = Resolved r ->
    produced r
| produced_batch requests b r :
    sendBatchRequest requests = Resolved b ->
    In r (responses b) ->
    produced r.

End Handler.

(** The invariant of [SendResponse] in the words of the specification:
    [messageId] is defined exactly on success and [error] exactly on
    failure. *)
Definition exactly_one_defined (r : SendResponse) : Prop :=
  (messageId_defined r = true <-> success r = true) /\
  (error_defined r = true <-> success r = false).

(** The [SendResponse] that a response gives when its [name] can be read:
    a success with the message id for status 200, and otherwise a failure
    with the classified error of the response. *)
Definition built (createFirebaseError : RequestResponseError -> FirebaseError)
    (part : RequestResponse) : SendResponse :=
  if Z.eqb (status part) 200 then
    {| success := true; messageId := Some (get (data part) "name"); error := None |}
  else
    {| success := false;
       messageId := None;
       error := Some (createFirebaseError {| response := part |}) |}.

(** A response part is readable when the builder can read its [name]: a
    part with status 200 carries a body other than [null] and [undefined]. *)
Definition readable (part : RequestResponse) : Prop :=
  status part = 200 -> is_nullish (data part) = false.

End Messaging.

(** ** The tenant configuration object *)

Module Auth.

(** The two members of [AuthClientErrorCode], of [utils/error], that the
    file uses. *)
Inductive AuthClientErrorCode : Type :=
| INVALID_ARGUMENT
| INTERNAL_ERROR.

Record FirebaseAuthError : Type := {
  errorInfo : AuthClientErrorCode;
  message : string;
}.

(** What a [throw] can carry in this module. *)
Inductive Thrown : Type :=
| ThrownFirebaseAuthError (err : FirebaseAuthError)
| ThrownTypeError.

(** [v.key] with the exception JavaScript raises on [null] and [undefined]. *)
Definition member (v : JsValue) (key : string) : Completion Thrown JsValue :=
  if is_nullish v then Throw ThrownTypeError else Return (get v key).

(** The double quote of the error messages. *)
Definition quote : string := String "034"%char EmptyString.

(** Modelled from the spec: [validator.isNonNullObject] of [utils/validator],
    which is not among the sources; by its name and use it holds of the
    values whose [typeof] is ['object'] and that are neither [null] nor an
    array. *)
Definition isNonNullObject (value : JsValue) : bool :=
  match value with JObj _ => true | _ => false end.

(** Modelled from the spec: [validator.isNonEmptyString] of
    [utils/validator], which is not among the sources; by its name it holds
    of the strings other than the empty one. *)
Definition isNonEmptyString (value : JsValue) : bool :=
  match value with JStr s => negb (String.eqb s "") | _ => false end.

(** The own keys of the [validKeys] literal of [validate]. *)
Definition validKeys : list string :=
  [ "displayName"; "emailSignInConfig"; "anonymousSignInEnabled";
    "multiFactorConfig"; "testPhoneNumbers"; "smsRegionConfig";
    "recaptchaConfig"; "passwordPolicyConfig"; "emailPrivacyConfig" ].

(** The properties every object literal inherits from [Object.prototype];
    the [in] operator sees them too. *)
Definition Object_prototype_keys : list string :=
  [ "constructor"; "hasOwnProperty"; "isPrototypeOf"; "propertyIsEnumerable";
    "toLocaleString"; "toString"; "valueOf"; "__proto__";
    "__defineGetter__"; "__defineSetter__"; "__lookupGetter__"; "__lookupSetter__" ].

(** [key in validKeys] *)
Definition in_validKeys (key : string) : bool :=
  existsb (String.eqb key) (validKeys ++ Object_prototype_keys).

(** The keys that [for (const key in request)] visits, in order. *)
Definition enumerable_keys (request : JsValue) : list string :=
  match request with
  | JObj fields => map fst fields
  | _ => []
  end.

Definition invalid_argument {A} (msg : string) : Completion Thrown A :=
  Throw (ThrownFirebaseAuthError {| errorInfo := INVALID_ARGUMENT; message := msg |}).

(** [err] is a [FirebaseAuthError] with code [INVALID_ARGUMENT]. *)
Definition is_invalid_argument (err : Thrown) : Prop :=
  exists msg, err = ThrownFirebaseAuthError {| errorInfo := INVALID_ARGUMENT; message := msg |}.

(** The loop that checks for unsupported top level attributes. *)
Fixpoint check_keys (label : string) (keys : list string) : Completion Thrown unit :=
  match keys with
  | [] => Return tt
  | key :: rest =>
      if negb (in_validKeys key) then
        invalid_argument (quote +:+ key +:+ quote +:+ " is not a valid " +:+ label +:+ " parameter.")
      else check_keys label rest
  end.

(** *** The regular expression of [getTenantIdFromResourceName]

    The pattern is the literal text [/tenants/], then a capturing group
    holding a greedy star over the any-character dot, then the end-of-input
    anchor. *)

(** The characters that [.] does not match, among the code units below 256. *)
Definition is_line_terminator (c : ascii) : bool :=
  Ascii.eqb c "010"%char || Ascii.eqb c "013"%char.

(** The group and the anchor tried at the start of [s]: the greedy star runs
    up to the first line terminator or the end of the input, and the anchor
    holds only at the end, so that giving characters back never helps.  The
    result is the text of the group. *)
Fixpoint match_group_to_end (s : string) : option string :=
  match s with
  | EmptyString => Some EmptyString
  | String c rest =>
      if is_line_terminator c then None
      else option_map (String c) (match_group_to_end rest)
  end.

(** The remainder of [s] after the literal [prefix], when [s] starts with it. *)
Fixpoint strip_literal (prefix s : string) : option string :=
  match prefix, s with
  | EmptyString, _ => Some s
  | String a prefix', String b s' =>
      if Ascii.eqb a b then strip_literal prefix' s' else None
  | String _ _, EmptyString => None
  end.

(** One attempt of the whole pattern at the start of [s]. *)
Definition match_here (s : string) : option string :=
  match strip_literal "/tenants/" s with
  | Some rest => match_group_to_end rest
  | None => None
  end.

(** [s.match(pattern)]: the attempts go from left to right and the first one
    that succeeds gives the match array, the matched text followed by the
    text of the group; [None] stands for [null]. *)
Fixpoint regexp_match (s : string) : option (list string) :=
  match match_here s with
  | Some group => Some ["/tenants/" +:+ group; group]
  | None =>
      match s with
      | EmptyString => None
      | String _ rest => regexp_match rest
      end
  end.

(** Returns the tenant ID corresponding to the resource name if available;
    [None] stands for [null]. *)
Definition getTenantIdFromResourceName (resourceName : string) : option string :=
  (* name is of form projects/project1/tenants/tenant1 *)
  match regexp_match resourceName with
  | None => None
  | Some matchTenantRes =>
      if (length matchTenantRes <? 2)%nat then None
      else nth_error matchTenantRes 1
  end.

(** No character of [s] is a line terminator. *)
Fixpoint line_terminator_free (s : string) : bool :=
  match s with
  | EmptyString => true
  | String c rest => negb (is_line_terminator c) && line_terminator_free rest
  end.

(** [s] reads [pre], then [/tenants/], then [t] up to its end, [t] holds no
    line terminator, and no occurrence of [/tenants/] further to the left is
    followed by a text without line terminator. *)
Definition first_tenants_match (s pre t : string) : Prop :=
  s = pre +:+ "/tenants/" +:+ t /\
  line_terminator_free t = true /\
  forall pre' t',
    s = pre' +:+ "/tenants/" +:+ t' ->
    line_terminator_free t' = true ->
    (String.length pre <= String.length pre')%nat.

(** In the words of the claim on [getTenantIdFromResourceName]: the
    substring that follows the last occurrence of [/tenants/], when there is
    one. *)
Fixpoint after_last_occurrence (s : string) : option string :=
  match s with
  | EmptyString => None
  | String _ rest =>
      match after_last_occurrence rest with
      | Some t => Some t
      | None => strip_literal "/tenants/" s
      end
  end.

Section Tenant.

(** The validators and builders of [auth-config]. *)
Variable EmailSignInConfig_buildServerRequest :
  JsValue -> Completion Thrown (gmap string JsValue).
Variable MultiFactorAuthConfig_buildServerRequest : JsValue -> Completion Thrown JsValue.
Variable validateTestPhoneNumbers : JsValue -> Completion Thrown unit.
Variable SmsRegionsAuthConfig_validate : JsValue -> Completion Thrown unit.
Variable RecaptchaAuthConfig_buildServerRequest : JsValue -> Completion Thrown JsValue.
Variable PasswordPolicyAuthConfig_buildServerRequest : JsValue -> Completion Thrown JsValue.
Variable EmailPrivacyAuthConfig_validate : JsValue -> Completion Thrown unit.

(** Runs [check] on [value] when [typeof value !== 'undefined']. *)
Definition when_defined {A} (value : JsValue) (check : JsValue -> Completion Thrown A)
  : Completion Thrown unit :=
  if is_defined value then let* _ := check value in Return tt else Return tt.

(** Validates a tenant options object. Throws an error on failure. *)
Definition validate (request : JsValue) (createRequest : bool) : Completion Thrown unit :=
  let label := if createRequest then "CreateTenantRequest" else "UpdateTenantRequest" in
  if negb (isNonNullObject request) then
    invalid_argument (quote +:+ label +:+ quote +:+ " must be a valid non-null object.")
  else
  (* Check for unsupported top level attributes. *)
  let* _ := check_keys label (enumerable_keys request) in
  (* Validate displayName type if provided. *)
  let* _ :=
    if is_defined (get request "displayName") &&
       negb (isNonEmptyString (get request "displayName")) then
      invalid_argument
        (quote +:+ label +:+ ".displayName" +:+ quote +:+ " must be a valid non-empty string.")
    else Return tt in
  (* Validate emailSignInConfig type if provided. *)
  let* _ := when_defined (get request "emailSignInConfig") EmailSignInConfig_buildServerRequest in
  (* Validate test phone numbers if provided. *)
  let* _ :=
    if is_defined (get request "testPhoneNumbers") &&
       negb (match get request "testPhoneNumbers" with JNull => true | _ => false end) then
      validateTestPhoneNumbers (get request "testPhoneNumbers")
    else if (match get request "testPhoneNumbers" with JNull => true | _ => false end)
            && createRequest then
      (* null allowed only for update operations. *)
      invalid_argument
        (quote +:+ label +:+ ".testPhoneNumbers" +:+ quote +:+ " must be a non-null object.")
    else Return tt in
  (* Validate multiFactorConfig type if provided. *)
  let* _ := when_defined (get request "multiFactorConfig") MultiFactorAuthConfig_buildServerRequest in
  (* Validate SMS Regions Config if provided. *)
  let* _ := when_defined (get request "smsRegionConfig") SmsRegionsAuthConfig_validate in
  (* Validate reCAPTCHAConfig type if provided. *)
  let* _ := when_defined (get request "recaptchaConfig") RecaptchaAuthConfig_buildServerRequest in
  (* Validate passwordPolicyConfig type if provided. *)
  let* _ := when_defined (get request "passwordPolicyConfig") PasswordPolicyAuthConfig_buildServerRequest in
  (* Validate Email Privacy Config if provided. *)
  when_defined (get request "emailPrivacyConfig") EmailPrivacyAuthConfig_validate.

(** Builds the corresponding server request for a TenantOptions object; the
    request object is a finite map from property names to values. *)
Definition buildServerRequest (tenantOptions : JsValue) (createRequest : bool)
  : Completion Thrown (gmap string JsValue) :=
  let* _ := validate tenantOptions createRequest in
  let* request :=
    if is_defined (get tenantOptions "emailSignInConfig") then
      EmailSignInConfig_buildServerRequest (get tenantOptions "emailSignInConfig")
    else Return ∅ in
  let request :=
    if is_defined (get tenantOptions "displayName") then
      <["displayName" := get tenantOptions "displayName"]> request
    else request in
  let request :=
    if is_defined (get tenantOptions "anonymousSignInEnabled") then
      <["enableAnonymousUser" := get tenantOptions "anonymousSignInEnabled"]> request
    else request in
  let* request :=
    if is_defined (get tenantOptions "multiFactorConfig") then
      let* mfaConfig :=
        MultiFactorAuthConfig_buildServerRequest (get tenantOptions "multiFactorConfig") in
      Return (<["mfaConfig" := mfaConfig]> request)
    else Return request in
  let request :=
    if is_defined (get tenantOptions "testPhoneNumbers") then
      (* null will clear existing test phone numbers. Translate to empty object. *)
      <["testPhoneNumbers" := nullish_coalesce (get tenantOptions "testPhoneNumbers") (JObj [])]>
        request
    else request in
  let request :=
    if is_defined (get tenantOptions "smsRegionConfig") then
      <["smsRegionConfig" := get tenantOptions "smsRegionConfig"]> request
    else request in
  let* request :=
    if is_defined (get tenantOptions "recaptchaConfig") then
      let* recaptchaConfig :=
        RecaptchaAuthConfig_buildServerRequest (get tenantOptions "recaptchaConfig") in
      Return (<["recaptchaConfig" := recaptchaConfig]> request)
    else Return request in
  let* request :=
    if is_defined (get tenantOptions "passwordPolicyConfig") then
      let* passwordPolicyConfig :=
        PasswordPolicyAuthConfig_buildServerRequest (get tenantOptions "passwordPolicyConfig") in
      Return (<["passwordPolicyConfig" := passwordPolicyConfig]> request)
    else Return request in
  let request :=
    if is_defined (get tenantOptions "emailPrivacyConfig") then
      <["emailPrivacyConfig" := get tenantOptions "emailPrivacyConfig"]> request
    else request in
  Return request.

(** The configuration classes of [auth-config] and [deepCopy]. *)
Variables (EmailSignInConfig MultiFactorAuthConfig RecaptchaAuthConfig
           PasswordPolicyAuthConfig : Type).
Variable EmailSignInConfig_new : JsValue -> Completion Thrown EmailSignInConfig.
Variable MultiFactorAuthConfig_new : JsValue -> Completion Thrown MultiFactorAuthConfig.
Variable RecaptchaAuthConfig_new : JsValue -> Completion Thrown RecaptchaAuthConfig.
Variable PasswordPolicyAuthConfig_new : JsValue -> Completion Thrown PasswordPolicyAuthConfig.
Variable deepCopy : JsValue -> JsValue.

(** The fields of a [Tenant]; [None] is a field the constructor left
    unassigned. *)
Record Tenant : Type := {
  tenantId : string;
  displayName : JsValue;
  anonymousSignInEnabled : bool;
  testPhoneNumbers : option JsValue;
  emailSignInConfig_ : EmailSignInConfig;
  multiFactorConfig_ : option MultiFactorAuthConfig;
  recaptchaConfig_ : option RecaptchaAuthConfig;
  smsRegionConfig : option JsValue;
  passwordPolicyConfig : option PasswordPolicyAuthConfig;
  emailPrivacyConfig : option JsValue;
}.

(** [if (typeof value !== 'undefined') { field = make(value) }] *)
Definition optional_field {A} (value : JsValue) (make : JsValue -> Completion Thrown A)
  : Completion Thrown (option A) :=
  if is_defined value then let* a := make value in Return (Some a) else Return None.

(** The constructor from the statement that assigns [tenantId] on. *)
Definition Tenant_init (tenantId : string) (response : JsValue) : Completion Thrown Tenant :=
  let displayName := get response "displayName" in
  let* emailSignInConfig_ :=
    match EmailSignInConfig_new response with
    | Return c => Return c
    | Throw _ =>
        (* If allowPasswordSignup is undefined, it is disabled by default. *)
        EmailSignInConfig_new (JObj [("allowPasswordSignup", JBool false)])
    end in
  let anonymousSignInEnabled := truthy (get response "enableAnonymousUser") in
  let* multiFactorConfig_ := optional_field (get response "mfaConfig") MultiFactorAuthConfig_new in
  let testPhoneNumbers :=
    if is_defined (get response "testPhoneNumbers") then
      Some (deepCopy (logical_or (get response "testPhoneNumbers") (JObj [])))
    else None in
  let smsRegionConfig :=
    if is_defined (get response "smsRegionConfig") then
      Some (deepCopy (get response "smsRegionConfig"))
    else None in
  let* recaptchaConfig_ :=
    optional_field (get response "recaptchaConfig") RecaptchaAuthConfig_new in
  let* passwordPolicyConfig :=
    optional_field (get response "passwordPolicyConfig") PasswordPolicyAuthConfig_new in
  let emailPrivacyConfig :=
    if is_defined (get response "emailPrivacyConfig") then
      Some (deepCopy (get response "emailPrivacyConfig"))
    else None in
  Return {| tenantId := tenantId;
            displayName := displayName;
            anonymousSignInEnabled := anonymousSignInEnabled;
            testPhoneNumbers := testPhoneNumbers;
            emailSignInConfig_ := emailSignInConfig_;
            multiFactorConfig_ := multiFactorConfig_;
            recaptchaConfig_ := recaptchaConfig_;
            smsRegionConfig := smsRegionConfig;
            passwordPolicyConfig := passwordPolicyConfig;
            emailPrivacyConfig := emailPrivacyConfig |}.

(** The error of the constructor's assertion on the tenant id. *)
Definition invalid_tenant_response : FirebaseAuthError :=
  {| errorInfo := INTERNAL_ERROR;
     message := "INTERNAL ASSERT FAILED: Invalid tenant response" |}.

(** The Tenant object constructor; [response.name] is a string by its type,
    and calling [match] on anything else raises a [TypeError]. *)
Definition Tenant_new (response : JsValue) : Completion Thrown Tenant :=
  let* name := member response "name" in
  match name with
  | JStr resourceName =>
      match getTenantIdFromResourceName resourceName with
      | None => Throw (ThrownFirebaseAuthError invalid_tenant_response)
      | Some tenantId =>
          if String.eqb tenantId "" then   (* [!tenantId] on the empty string *)
            Throw (ThrownFirebaseAuthError invalid_tenant_response)
          else Tenant_init tenantId response
      end
  | _ => Throw ThrownTypeError
  end.

(** The [toJSON] methods of the configuration classes, and the configuration
    objects seen as the values that [deepCopy] receives. *)
Variable EmailSignInConfig_toJSON : EmailSignInConfig -> JsValue.
Variable MultiFactorAuthConfig_toJSON : MultiFactorAuthConfig -> JsValue.
Variable RecaptchaAuthConfig_value : RecaptchaAuthConfig -> JsValue.
Variable PasswordPolicyAuthConfig_value : PasswordPolicyAuthConfig -> JsValue.

(** The email sign in provider configuration. *)
Definition emailSignInConfig (this : Tenant) : EmailSignInConfig :=
  emailSignInConfig_ this.

(** The multi-factor auth configuration on the current tenant. *)
Definition multiFactorConfig (this : Tenant) : option MultiFactorAuthConfig :=
  multiFactorConfig_ this.

(** The recaptcha config auth configuration of the current tenant. *)
Definition recaptchaConfig (this : Tenant) : option RecaptchaAuthConfig :=
  recaptchaConfig_ this.

(** [delete json.key] *)
Fixpoint delete_property (key : string) (fields : list (string * JsValue))
  : list (string * JsValue) :=
  match fields with
  | [] => []
  | (k, v) :: rest =>
      if String.eqb k key then delete_property key rest
      else (k, v) :: delete_property key rest
  end.

(** [if (typeof json.key === 'undefined') { delete json.key; }] *)
Definition delete_if_undefined (key : string) (fields : list (string * JsValue))
  : list (string * JsValue) :=
  if is_defined (get (JObj fields) key) then fields else delete_property key fields.

(** An unassigned field reads as [undefined]. *)
Definition read_field {A} (value : A -> JsValue) (field : option A) : JsValue :=
  match field with Some a => value a | None => JUndefined end.

(** Returns a JSON-serializable representation of this object. *)
Definition toJSON (this : Tenant) : JsValue :=
  let json :=
    [ ("tenantId", JStr (tenantId this));
      ("displayName", displayName this);
      ("emailSignInConfig", EmailSignInConfig_toJSON (emailSignInConfig_ this));
      ("multiFactorConfig", read_field MultiFactorAuthConfig_toJSON (multiFactorConfig_ this));
      ("anonymousSignInEnabled", JBool (anonymousSignInEnabled this));
      ("testPhoneNumbers", read_field (fun v => v) (testPhoneNumbers this));
      ("smsRegionConfig", deepCopy (read_field (fun v => v) (smsRegionConfig this)));
      ("recaptchaConfig", deepCopy (read_field RecaptchaAuthConfig_value (recaptchaConfig this)));
      ("passwordPolicyConfig",
        deepCopy (read_field PasswordPolicyAuthConfig_value (passwordPolicyConfig this)));
      ("emailPrivacyConfig", deepCopy (read_field (fun v => v) (emailPrivacyConfig this))) ] in
  let json := delete_if_undefined "multiFactorConfig" json in
  let json := delete_if_undefined "testPhoneNumbers" json in
  let json := delete_if_undefined "smsRegionConfig" json in
  let json := delete_if_undefined "recaptchaConfig" json in
  let json := delete_if_undefined "passwordPolicyConfig" json in
  let json := delete_if_undefined "emailPrivacyConfig" json in
  JObj json.

End Tenant.

(** The keys of the server request that [buildServerRequest] assigns. *)
Definition server_keys : list string :=
  [ "displayName"; "enableAnonymousUser"; "mfaConfig"; "testPhoneNumbers";
    "smsRegionConfig"; "recaptchaConfig"; "passwordPolicyConfig"; "emailPrivacyConfig" ].

(** The option of the tenant request that a key of the server request is
    assigned from. *)
Definition option_of_server_key (key : string) : string :=
  if String.eqb key "enableAnonymousUser" then "anonymousSignInEnabled"
  else if String.eqb key "mfaConfig" then "multiFactorConfig"
  else key.

(** The keys that [toJSON] removes when they read as [undefined]. *)
Definition optional_json_keys : list string :=
  [ "multiFactorConfig"; "testPhoneNumbers"; "smsRegionConfig";
    "recaptchaConfig"; "passwordPolicyConfig"; "emailPrivacyConfig" ].

(** No character of [s] is a slash. *)
Fixpoint slash_free (s : string) : bool :=
  match s with
  | EmptyString => true
  | String c rest => negb (Ascii.eqb c "/"%char) && slash_free rest
  end.

End Auth.

(** ** Sample collaborators

    Concrete transports, a concrete classifier and concrete validators, on
    which the theorems below are run. *)

Module Samples.
Import Messaging.

(** A transport (or batch client) that settles every request in the same
    way. *)
Definition constant_transport {Request A : Type} (outcome : Promise A)
  : Request -> Promise A :=
  fun _ => outcome.

(** A classifier that reads [error.status] from the body. *)
Definition sample_getErrorCode (body : JsValue) : JsValue :=
  get (get body "error") "status".

Definition sample_createFirebaseError (err : RequestResponseError) : FirebaseError :=
  match sample_getErrorCode (data (response err)) with
  | JStr "INVALID_ARGUMENT" =>
      {| code := "messaging/invalid-argument"; message := "Invalid argument" |}
  | JStr "UNREGISTERED" =>
      {| code := "messaging/registration-token-not-registered";
         message := "Requested entity was not found." |}
  | _ => {| code := "messaging/unknown-error"; message := "An unknown server error was returned." |}
  end.

Definition sent_response : RequestResponse :=
  {| status := 200;
     data := JObj [("name", JStr "projects/p/messages/123")];
     isJson := true |}.

Definition bad_token_response : RequestResponse :=
  {| status := 400;
     data := JObj [("error", JObj [("status", JStr "INVALID_ARGUMENT");
                                   ("message", JStr "bad token")])];
     isJson := true |}.

Definition unregistered_response : RequestResponse :=
  {| status := 404;
     data := JObj [("error", JObj [("status", JStr "UNREGISTERED")])];
     isJson := true |}.

(** A status 200 response whose body has no [name] field. *)
Definition nameless_response : RequestResponse :=
  {| status := 200; data := JObj []; isJson := true |}.

(** The error the transport raises when the network cannot be reached; it is
    already in normalized form. *)
Definition network_error : FirebaseError :=
  {| code := "app/network-error"; message := "Error while making request." |}.

(** The HTTP/1.1 transport of a machine without network. *)
Definition offline : HttpRequestConfig -> Promise RequestResponse :=
  constant_transport (Rejected (ThrownFirebaseError network_error)).

(** A status 200 response whose body is [null]. *)
Definition null_body_response : RequestResponse :=
  {| status := 200; data := JNull; isJson := true |}.

(** Equality of request descriptions, field by field; the body is compared
    as far as the samples need it, by its [token]. *)
Definition same_request (a b : HttpRequestConfig) : bool :=
  String.eqb (method a) (method b) && String.eqb (url a) (url b) &&
  Z.eqb (timeout a) (timeout b) &&
  forallb (fun '(h, h') => String.eqb (fst h) (fst h') && String.eqb (snd h) (snd h'))
          (combine (headers a) (headers b)) &&
  Nat.eqb (length (headers a)) (length (headers b)) &&
  match get (body a) "token", get (body b) "token" with
  | JStr x, JStr y => String.eqb x y
  | _, _ => false
  end.

(** A transport that answers one request and is offline for every other. *)
Definition only_for (expected : HttpRequestConfig) (outcome : Promise RequestResponse)
  : HttpRequestConfig -> Promise RequestResponse :=
  fun request =>
    if same_request request expected then outcome
    else Rejected (ThrownFirebaseError network_error).

(** The request of a send to the v1 endpoint by SDK 12.0.0 on Node 18. *)
Definition sent_request : HttpRequestConfig :=
  {| method := "POST";
     url := "https://fcm.googleapis.com/v1/projects/p/messages:send";
     body := JObj [("token", JStr "token")];
     headers :=
       [ ("X-Firebase-Client", "fire-admin-node/12.0.0");
         ("X-Goog-Api-Client", "gl-node/18.0.0 fire-admin/12.0.0");
         ("access_token_auth", "true") ];
     timeout := 15000 |}.

(** A backend for batches: the sub-request is the registration token, and
    the token ["stale"] is not registered any more. *)
Definition sample_reply (token : string) : RequestResponse :=
  if String.eqb token "stale" then unregistered_response
  else {| status := 200;
          data := JObj [("name", JStr ("projects/p/messages/" +:+ token))];
          isJson := true |}.

Definition sample_BatchRequestClient_send
    (client : HttpRequestConfig -> Promise RequestResponse)
    (batchUrl : string) (commonHeaders : list (string * string))
    (requests : list string) : Promise (list RequestResponse) :=
  Resolved (map sample_reply requests).

(** A batch client whose multipart request fails as a whole. *)
Definition failing_BatchRequestClient_send (err : Thrown)
    (client : HttpRequestConfig -> Promise RequestResponse)
    (batchUrl : string) (commonHeaders : list (string * string))
    (requests : list string) : Promise (list RequestResponse) :=
  Rejected err.

(** A batch client that decodes the given parts whatever the batch. *)
Definition fixed_BatchRequestClient_send (parts : list RequestResponse)
    (client : HttpRequestConfig -> Promise RequestResponse)
    (batchUrl : string) (commonHeaders : list (string * string))
    (requests : list string) : Promise (list RequestResponse) :=
  Resolved parts.

Definition sample_answers (token : string) (part : RequestResponse) : Prop :=
  part = sample_reply token.

End Samples.

Module AuthSamples.
Import Auth.

(** An email sign-in validation that wants an object and maps [enabled] to
    [allowPasswordSignup]. *)
Definition sample_EmailSignInConfig_buildServerRequest (options : JsValue)
  : Completion Thrown (gmap string JsValue) :=
  if isNonNullObject options then
    Return (<["allowPasswordSignup" := get options "enabled"]> ∅)
  else invalid_argument "EmailSignInConfig must be a non-null object.".

(** Validators and builders that accept every value. *)
Definition accept (value : JsValue) : Completion Thrown unit := Return tt.
Definition build_as_is (value : JsValue) : Completion Thrown JsValue := Return value.

(** Configuration objects that keep the response they were made from. *)
Definition keep (value : JsValue) : Completion Thrown JsValue := Return value.

(** An update that renames the tenant and clears its test phone numbers. *)
Definition clearing_update : JsValue :=
  JObj [("displayName", JStr "acme"); ("testPhoneNumbers", JNull)].

Definition tenant_response : JsValue :=
  JObj [("name", JStr "projects/project1/tenants/tenant1");
        ("displayName", JStr "acme");
        ("allowPasswordSignup", JBool true)].

(** A request that sets every option but the email sign-in one. *)
Definition full_update : JsValue :=
  JObj [("displayName", JStr "acme");
        ("anonymousSignInEnabled", JBool true);
        ("multiFactorConfig", JObj [("state", JStr "ENABLED")]);
        ("testPhoneNumbers", JObj [("+16505551234", JStr "123456")]);
        ("smsRegionConfig", JObj [("allowByDefault", JObj [])]);
        ("recaptchaConfig", JObj [("emailPasswordEnforcementState", JStr "AUDIT")]);
        ("passwordPolicyConfig", JObj [("enforcementState", JStr "ENFORCE")]);
        ("emailPrivacyConfig", JObj [("enableImprovedEmailPrivacy", JBool true)])].

(** A configuration class that refuses a response without the given field,
    as the email sign-in configuration does with [allowPasswordSignup]. *)
Definition require_field (field : string) (response : JsValue)
  : Completion Thrown JsValue :=
  if is_defined (get response field) then Return response
  else Throw (ThrownFirebaseAuthError
                {| errorInfo := INTERNAL_ERROR;
                   message := "INTERNAL ASSERT FAILED: Invalid configuration response" |}).

(** The response for a tenant without email sign-in fields, with [null] test
    phone numbers. *)
Definition bare_response : JsValue :=
  JObj [("name", JStr "projects/project1/tenants/tenant1");
        ("testPhoneNumbers", JNull)].

(** The tenant of [tenant_response], when the configuration objects keep
    the response they are made from. *)
Definition sample_tenant : Tenant JsValue JsValue JsValue JsValue :=
  {| tenantId := "tenant1";
     displayName := JStr "acme";
     anonymousSignInEnabled := false;
     testPhoneNumbers := None;
     emailSignInConfig_ := tenant_response;
     multiFactorConfig_ := None;
     recaptchaConfig_ := None;
     smsRegionConfig := None;
     passwordPolicyConfig := None;
     emailPrivacyConfig := None |}.

(** The properties of its JSON. *)
Definition sample_tenant_json : list (string * JsValue) :=
  [ ("tenantId", JStr "tenant1");
    ("displayName", JStr "acme");
    ("emailSignInConfig", tenant_response);
    ("anonymousSignInEnabled", JBool false) ].

End AuthSamples.

(** * Properties of the messaging request handler *)

Module MessagingProofs.
Import Messaging.

(** ** The [map] of a callback that may throw *)

Lemma map__aligned {A B} (f : A -> Completion Thrown B) (xs : list A) (ys : list B) :
  map_ f xs = Return ys -> Forall2 (fun x y => f x = Return y) xs ys.
Proof.
  revert ys. induction xs as [|x xs IH]; intros ys H; simpl in H.
  - injection H as <-. constructor.
  - destruct (f x) as [y|e] eqn:Hx; simpl in H; [|discriminate].
    destruct (map_ f xs) as [ys'|e] eqn:Hxs; simpl in H; [|discriminate].
    injection H as <-. constructor; [exact Hx | apply IH; reflexivity].
Qed.

Lemma map__total {A B} (f : A -> Completion Thrown B) (xs : list A) :
  Forall (fun x => exists y, f x = Return y) xs -> exists ys, map_ f xs = Return ys.
Proof.
  induction 1 as [|x xs [y Hy] _ [ys Hys]]; simpl.
  - eexists; reflexivity.
  - rewrite Hy; simpl. rewrite Hys; simpl. eexists; reflexivity.
Qed.

Lemma filter_length_le {A} (p : A -> bool) (xs : list A) :
  (length (List.filter p xs) <= length xs)%nat.
Proof.
  induction xs as [|x xs IH]; simpl; [lia|].
  destruct (p x); simpl; lia.
Qed.

Section HandlerProofs.

Variables (sdkVersion nodeVersion : string).
Variable createFirebaseError : RequestResponseError -> FirebaseError.
Variable getErrorCode : JsValue -> JsValue.
Variables (SubRequest Http2SessionHandler : Type).
Variable httpClient_send : HttpRequestConfig -> Promise RequestResponse.
Variable http2Client_send :
  Http2RequestConfig Http2SessionHandler -> Promise RequestResponse.
Variable BatchRequestClient_send :
  (HttpRequestConfig -> Promise RequestResponse) -> string -> list (string * string) ->
  list SubRequest -> Promise (list RequestResponse).

(** The reply of the backend to one sub-request, as the batch client decodes
    it: the batch client returns the replies in the order of the
    sub-requests. *)
Variable answers : SubRequest -> RequestResponse -> Prop.

Local Abbreviation legacy_request := (Messaging.legacy_request sdkVersion nodeVersion).
Local Abbreviation invokeRequestHandler :=
  (Messaging.invokeRequestHandler sdkVersion nodeVersion createFirebaseError getErrorCode
     httpClient_send).
Local Abbreviation buildSendResponse := (Messaging.buildSendResponse createFirebaseError).
Local Abbreviation buildSendResponseFromError :=
  (Messaging.buildSendResponseFromError createFirebaseError).
Local Abbreviation invokeHttpRequestHandlerForSendResponse :=
  (Messaging.invokeHttpRequestHandlerForSendResponse sdkVersion nodeVersion
     createFirebaseError httpClient_send).
Local Abbreviation invokeHttp2RequestHandlerForSendResponse :=
  (Messaging.invokeHttp2RequestHandlerForSendResponse sdkVersion nodeVersion
     createFirebaseError Http2SessionHandler http2Client_send).
Local Abbreviation batchClient_send :=
  (Messaging.batchClient_send sdkVersion nodeVersion SubRequest httpClient_send
     BatchRequestClient_send).
Local Abbreviation sendBatchRequest :=
  (Messaging.sendBatchRequest sdkVersion nodeVersion createFirebaseError SubRequest
     httpClient_send BatchRequestClient_send).
Local Abbreviation produced :=
  (Messaging.produced sdkVersion nodeVersion createFirebaseError SubRequest
     Http2SessionHandler httpClient_send http2Client_send BatchRequestClient_send).

(** ** The response builders *)

Lemma buildSendResponse_200 (response : RequestResponse) :
  status response = 200 ->
  is_nullish (data response) = false ->
  buildSendResponse response =
    Return {| success := true;
              messageId := Some (get (data response) "name");
              error := None |}.
Proof.
  intros Hs Hd. unfold Messaging.buildSendResponse, member. simpl.
  rewrite Hs, Hd. reflexivity.
Qed.

Lemma buildSendResponse_not_200 (response : RequestResponse) :
  status response <> 200 ->
  buildSendResponse response =
    Return {| success := false;
              messageId := None;
              error := Some (createFirebaseError {| response := response |}) |}.
Proof.
  intros Hs. unfold Messaging.buildSendResponse. simpl.
  destruct (Z.eqb_spec (status response) 200); [contradiction | reflexivity].
Qed.

Lemma buildSendResponse_readable (part : RequestResponse) :
  readable part -> exists r, buildSendResponse part = Return r.
Proof.
  intros Hr. destruct (Z.eq_dec (status part) 200) as [Hs|Hs].
  - eexists. apply buildSendResponse_200; auto.
  - eexists. apply buildSendResponse_not_200; auto.
Qed.

(** What a returned [SendResponse] looks like. *)
Lemma buildSendResponse_inv (response : RequestResponse) (r : SendResponse) :
  buildSendResponse response = Return r ->
  success r = Z.eqb (status response) 200 /\
  (success r = true ->
     is_nullish (data response) = false /\
     messageId r = Some (get (data response) "name") /\ error r = None) /\
  (success r = false ->
     messageId r = None /\
     error r = Some (createFirebaseError {| response := response |})).
Proof.
  unfold Messaging.buildSendResponse, member. simpl.
  destruct (Z.eqb (status response) 200) eqn:Hs.
  - destruct (is_nullish (data response)) eqn:Hd; simpl; [discriminate|].
    intros [= <-]. simpl. repeat split; try reflexivity; discriminate.
  - intros [= <-]. simpl. repeat split; try reflexivity; discriminate.
Qed.

(** The only exception the builder raises is the [TypeError] of reading
    [name] from a missing body. *)
Lemma buildSendResponse_throws (response : RequestResponse) (err : Thrown) :
  buildSendResponse response = Throw err ->
  err = ThrownTypeError /\ status response = 200 /\ is_nullish (data response) = true.
Proof.
  unfold Messaging.buildSendResponse, member. simpl.
  destruct (Z.eqb_spec (status response) 200) as [Hs|Hs]; [|discriminate].
  destruct (is_nullish (data response)); simpl; [|discriminate].
  intros [= <-]. auto.
Qed.

(** ** Single sends *)

Lemma invokeHttp_outcome (host path : string) (requestData : JsValue) :
  invokeHttpRequestHandlerForSendResponse host path requestData =
    match httpClient_send (legacy_request host path requestData) with
    | Resolved response => settle (buildSendResponse response)
    | Rejected (ThrownRequestResponseError e) => Resolved (buildSendResponseFromError e)
    | Rejected err => Rejected err
    end.
Proof.
  unfold Messaging.invokeHttpRequestHandlerForSendResponse, Messaging.legacy_request.
  destruct (httpClient_send _) as [response|err]; simpl.
  - destruct (buildSendResponse response) as [r|err] eqn:Hb; [reflexivity|].
    apply buildSendResponse_throws in Hb as [-> _]. reflexivity.
  - destruct err; reflexivity.
Qed.

Lemma invokeHttp2_outcome (host path : string) (requestData : JsValue)
    (session : Http2SessionHandler) :
  invokeHttp2RequestHandlerForSendResponse host path requestData session =
    match http2Client_send {| config := legacy_request host path requestData;
                              http2SessionHandler := session |} with
    | Resolved response => settle (buildSendResponse response)
    | Rejected (ThrownRequestResponseError e) => Resolved (buildSendResponseFromError e)
    | Rejected err => Rejected err
    end.
Proof.
  unfold Messaging.invokeHttp2RequestHandlerForSendResponse, Messaging.legacy_request.
  destruct (http2Client_send _) as [response|err]; simpl.
  - destruct (buildSendResponse response) as [r|err] eqn:Hb; [reflexivity|].
    apply buildSendResponse_throws in Hb as [-> _]. reflexivity.
  - destruct err; reflexivity.
Qed.

Lemma sendBatchRequest_outcome (requests : list SubRequest) :
  sendBatchRequest requests =
    match batchClient_send requests with
    | Resolved parts =>
        match map_ buildSendResponse parts with
        | Return rs =>
            Resolved {| responses := rs;
                        successCount := Z.of_nat (length (List.filter success rs));
                        failureCount :=
                          Z.of_nat (length rs) - Z.of_nat (length (List.filter success rs)) |}
        | Throw ThrownTypeError => Rejected ThrownTypeError
        | Throw (ThrownRequestResponseError e) =>
            Rejected (ThrownFirebaseError (createFirebaseError e))
        | Throw err => Rejected err
        end
    | Rejected (ThrownRequestResponseError e) =>
        Rejected (ThrownFirebaseError (createFirebaseError e))
    | Rejected err => Rejected err
    end.
Proof.
  unfold Messaging.sendBatchRequest.
  destruct (batchClient_send requests) as [parts|err]; simpl.
  - destruct (map_ _ parts) as [rs|[e|e|]]; reflexivity.
  - destruct err; reflexivity.
Qed.

(** ** Batch sends *)

(** The aggregate of a batch is computed from its responses alone. *)
Lemma sendBatchRequest_resolved (requests : list SubRequest) (b : BatchResponse) :
  sendBatchRequest requests = Resolved b ->
  exists parts,
    batchClient_send requests = Resolved parts /\
    map_ buildSendResponse parts = Return (responses b) /\
    successCount b = Z.of_nat (length (List.filter success (responses b))) /\
    failureCount b = Z.of_nat (length (responses b)) - successCount b.
Proof.
  rewrite sendBatchRequest_outcome.
  destruct (batchClient_send requests) as [parts|err].
  - destruct (map_ buildSendResponse parts) as [rs|err] eqn:Hm.
    + intros [= <-]. exists parts. simpl. auto.
    + destruct err; discriminate.
  - destruct err; discriminate.
Qed.

(** C1: when the batch client answers a batch of N sub-requests with the N
    replies in the order of the sub-requests, every [BatchResponse] that
    [sendBatchRequest] resolves with has N responses, the i-th one built
    from the reply to the i-th sub-request (its [success] tells whether that
    reply had status 200), [successCount] is the number of responses with
    [success] true, [failureCount] is N minus [successCount], and the two
    counts add up to the number of responses; and [sendBatchRequest] does
    resolve with one when every reply of status 200 carries a body. *)
Theorem sendBatchRequest_counts_and_order
    (requests : list SubRequest) (parts : list RequestResponse) :
  batchClient_send requests = Resolved parts ->
  Forall2 answers requests parts ->
  (forall b, sendBatchRequest requests = Resolved b ->
     length (responses b) = length requests /\
     Forall2 (fun request r =>
                exists part, answers request part /\
                  buildSendResponse part = Return r /\
                  success r = Z.eqb (status part) 200)
             requests (responses b) /\
     successCount b = Z.of_nat (length (List.filter success (responses b))) /\
     failureCount b = Z.of_nat (length requests) - successCount b /\
     successCount b + failureCount b = Z.of_nat (length (responses b)) /\
     0 <= successCount b /\ 0 <= failureCount b) /\
  (Forall readable parts -> exists b, sendBatchRequest requests = Resolved b).
Proof.
  intros Hsend Hparts. split.
  - intros b Hb.
    destruct (sendBatchRequest_resolved _ _ Hb) as (parts' & Hsend' & Hmap & Hsc & Hfc).
    rewrite Hsend in Hsend'. injection Hsend' as <-.
    apply map__aligned in Hmap.
    assert (Hlen : length (responses b) = length requests).
    { apply Forall2_length in Hparts, Hmap. congruence. }
    pose proof (filter_length_le success (responses b)) as Hle.
    repeat split; try lia.
    clear Hsend Hb Hsc Hfc Hlen Hle.
    revert Hmap. generalize (responses b) as rs.
    induction Hparts as [|request part requests parts Ha _ IH]; intros rs Hmap.
    + inversion Hmap; subst. constructor.
    + inversion Hmap as [|? r ? rs' Hr Hrs]; subst. constructor; [|apply IH; exact Hrs].
      exists part. repeat split; auto.
      apply (buildSendResponse_inv part r Hr).
  - intros Hread. rewrite sendBatchRequest_outcome, Hsend.
    destruct (map__total buildSendResponse parts) as [rs ->].
    + eapply Forall_impl; [exact Hread|]. intros part. apply buildSendResponse_readable.
    + eexists; reflexivity.
Qed.

(** C6: for the empty list of sub-requests, to which the batch client
    answers with the replies of its (no) sub-requests, [sendBatchRequest]
    resolves with no responses, [successCount] 0 and [failureCount] 0. *)
Theorem sendBatchRequest_empty (parts : list RequestResponse) :
  batchClient_send [] = Resolved parts ->
  Forall2 answers [] parts ->
  sendBatchRequest [] =
    Resolved {| responses := []; successCount := 0; failureCount := 0 |}.
Proof.
  intros Hsend Hparts. inversion Hparts; subst.
  rewrite sendBatchRequest_outcome, Hsend. reflexivity.
Qed.

(** C5: when the batch client itself fails, with a transport error or with
    an error that is already normalized, [sendBatchRequest] rejects with one
    normalized error, the classified transport error or the normalized error
    itself, and resolves with no [BatchResponse] at all. *)
Theorem sendBatchRequest_encoder_failure (requests : list SubRequest) (err : Thrown) :
  batchClient_send requests = Rejected err ->
  instanceofRequestResponseError err || normalized err = true ->
  (forall b, sendBatchRequest requests <> Resolved b) /\
  exists e : FirebaseError,
    sendBatchRequest requests = Rejected (ThrownFirebaseError e) /\
    normalized (ThrownFirebaseError e) = true /\
    match err with
    | ThrownRequestResponseError rre => e = createFirebaseError rre
    | _ => err = ThrownFirebaseError e
    end.
Proof.
  intros Hsend Hkind. rewrite sendBatchRequest_outcome, Hsend.
  destruct err as [rre|e|]; simpl in Hkind; try discriminate.
  - split; [discriminate|]. exists (createFirebaseError rre). auto.
  - split; [discriminate|]. exists e. auto.
Qed.

(** ** The raw passthrough *)

Lemma invokeRequestHandler_outcome (host path : string) (requestData : JsValue) :
  invokeRequestHandler host path requestData =
    match httpClient_send (legacy_request host path requestData) with
    | Resolved response =>
        if isJson response && negb (truthy (getErrorCode (data response))) then
          Resolved (data response)
        else Rejected (ThrownFirebaseError (createFirebaseError {| response := response |}))
    | Rejected (ThrownRequestResponseError e) =>
        Rejected (ThrownFirebaseError (createFirebaseError e))
    | Rejected err => Rejected err
    end.
Proof.
  unfold Messaging.invokeRequestHandler, Messaging.legacy_request.
  destruct (httpClient_send _) as [response|err]; simpl.
  - destruct (isJson response); simpl; [|reflexivity].
    destruct (truthy (getErrorCode (data response))); reflexivity.
  - destruct err; reflexivity.
Qed.

(** C4: for a response delivered by the transport, [invokeRequestHandler]
    resolves, and then with the raw response data, if and only if the body
    is JSON and the classifier finds no error code in it; if either
    condition fails the call rejects with the normalized error that the
    classifier derives from that response. *)
Theorem invokeRequestHandler_success_iff
    (host path : string) (requestData : JsValue) (response : RequestResponse) :
  httpClient_send (legacy_request host path requestData) = Resolved response ->
  (forall v, invokeRequestHandler host path requestData = Resolved v <->
             isJson response = true /\ truthy (getErrorCode (data response)) = false /\
             v = data response) /\
  (isJson response = false \/ truthy (getErrorCode (data response)) = true ->
   invokeRequestHandler host path requestData =
     Rejected (ThrownFirebaseError (createFirebaseError {| response := response |}))).
Proof.
  intros Hsend. rewrite invokeRequestHandler_outcome, Hsend.
  destruct (isJson response), (truthy (getErrorCode (data response))); simpl; split.
  all: try (intros v; split; [discriminate | intros (? & ? & ?); discriminate]).
  all: try (intros _; reflexivity).
  - intros v; split; [intros [= <-]; auto | intros (_ & _ & ->); reflexivity].
  - intros [?|?]; discriminate.
Qed.

(** ** Errors that are already normalized *)

(** C7: in all four operations an error that is already in normalized form
    is propagated unchanged: when the transport (or the batch client)
    rejects with it, the operation rejects with that very error, not with an
    error wrapped around it. *)
Theorem normalized_error_propagated_unchanged (err : Thrown) :
  normalized err = true ->
  (forall host path requestData,
     httpClient_send (legacy_request host path requestData) = Rejected err ->
     invokeRequestHandler host path requestData = Rejected err) /\
  (forall host path requestData,
     httpClient_send (legacy_request host path requestData) = Rejected err ->
     invokeHttpRequestHandlerForSendResponse host path requestData = Rejected err) /\
  (forall host path requestData session,
     http2Client_send {| config := legacy_request host path requestData;
                         http2SessionHandler := session |} = Rejected err ->
     invokeHttp2RequestHandlerForSendResponse host path requestData session = Rejected err) /\
  (forall requests,
     batchClient_send requests = Rejected err ->
     sendBatchRequest requests = Rejected err).
Proof.
  intros Hn. destruct err as [rre|e|]; simpl in Hn; try discriminate.
  repeat split; intros.
  - rewrite invokeRequestHandler_outcome, H. reflexivity.
  - rewrite invokeHttp_outcome, H. reflexivity.
  - rewrite invokeHttp2_outcome, H. reflexivity.
  - rewrite sendBatchRequest_outcome, H. reflexivity.
Qed.

(** ** The two transports *)

(** C3, as amended: [invokeHttpRequestHandlerForSendResponse] resolves with
    a [SendResponse] for every response that the transport delivers,
    whether resolved or carried by a transport error: status 200 (with a
    body) gives success with [messageId] read from the [name] field of the
    body, any other status and any transport error carrying a response give
    a failure whose error comes from the classifier; an error that is not
    such a transport error is thrown again unchanged, so the call rejects. *)
Theorem invokeHttp_send_response (host path : string) (requestData : JsValue) :
  (forall response,
     httpClient_send (legacy_request host path requestData) = Resolved response ->
     status response = 200 ->
     is_nullish (data response) = false ->
     invokeHttpRequestHandlerForSendResponse host path requestData =
       Resolved {| success := true;
                   messageId := Some (get (data response) "name");
                   error := None |}) /\
  (forall response,
     httpClient_send (legacy_request host path requestData) = Resolved response ->
     status response <> 200 ->
     invokeHttpRequestHandlerForSendResponse host path requestData =
       Resolved {| success := false;
                   messageId := None;
                   error := Some (createFirebaseError {| response := response |}) |}) /\
  (forall rre,
     httpClient_send (legacy_request host path requestData) =
       Rejected (ThrownRequestResponseError rre) ->
     invokeHttpRequestHandlerForSendResponse host path requestData =
       Resolved {| success := false;
                   messageId := None;
                   error := Some (createFirebaseError rre) |}) /\
  (forall err,
     httpClient_send (legacy_request host path requestData) = Rejected err ->
     instanceofRequestResponseError err = false ->
     invokeHttpRequestHandlerForSendResponse host path requestData = Rejected err).
Proof.
  rewrite invokeHttp_outcome. repeat split.
  - intros response -> Hs Hd. rewrite buildSendResponse_200; auto.
  - intros response -> Hs. rewrite buildSendResponse_not_200; auto.
  - intros rre ->. reflexivity.
  - intros err -> Hk. destruct err; [discriminate | reflexivity | reflexivity].
Qed.

(** C8: when the two transports give the same outcome (the same response or
    the same thrown error) for the request, which is the same description
    with the session handle of the caller added for the multiplexed
    transport, [invokeHttp2RequestHandlerForSendResponse] and
    [invokeHttpRequestHandlerForSendResponse] produce the same result. *)
Theorem invokeHttp2_same_contract
    (host path : string) (requestData : JsValue) (session : Http2SessionHandler) :
  http2Client_send {| config := legacy_request host path requestData;
                      http2SessionHandler := session |} =
    httpClient_send (legacy_request host path requestData) ->
  invokeHttp2RequestHandlerForSendResponse host path requestData session =
    invokeHttpRequestHandlerForSendResponse host path requestData.
Proof.
  intros Hsame. rewrite invokeHttp2_outcome, invokeHttp_outcome, Hsame. reflexivity.
Qed.

(** ** The fields of a [SendResponse] *)

(** Every produced [SendResponse] comes out of one of the two builders. *)
Lemma produced_built (r : SendResponse) :
  produced r ->
  (exists response, buildSendResponse response = Return r) \/
  (exists rre, r = buildSendResponseFromError rre).
Proof.
  intros [host path requestData r' H | host path requestData session r' H
         | requests b r' H Hin].
  - rewrite invokeHttp_outcome in H.
    destruct (httpClient_send _) as [response|[rre|e|]]; try discriminate.
    + left. exists response. destruct (buildSendResponse response); [|discriminate].
      injection H as ->. reflexivity.
    + right. exists rre. injection H as <-. reflexivity.
  - rewrite invokeHttp2_outcome in H.
    destruct (http2Client_send _) as [response|[rre|e|]]; try discriminate.
    + left. exists response. destruct (buildSendResponse response); [|discriminate].
      injection H as ->. reflexivity.
    + right. exists rre. injection H as <-. reflexivity.
  - destruct (sendBatchRequest_resolved _ _ H) as (parts & _ & Hmap & _).
    apply map__aligned in Hmap. left.
    revert Hin. induction Hmap as [|part r0 parts rs Hr _ IH]; simpl; [tauto|].
    intros [<-|Hin]; [exists part; exact Hr | apply IH; exact Hin].
Qed.

(** C2, as amended: for every [SendResponse] produced by an operation of the
    handler, [error] is defined if and only if [success] is false, and
    [messageId] is defined only if [success] is true: on failure
    [messageId] is never assigned, on success [error] is never assigned and
    [messageId] is what the [name] field of the status 200 body it was built
    from reads as, hence defined exactly when that body has a [name]. *)
Theorem SendResponse_fields (r : SendResponse) :
  produced r ->
  (error_defined r = true <-> success r = false) /\
  (messageId_defined r = true -> success r = true) /\
  (success r = false -> messageId r = None) /\
  (success r = true ->
   error r = None /\
   exists response,
     buildSendResponse response = Return r /\
     status response = 200 /\
     messageId r = Some (get (data response) "name") /\
     (messageId_defined r = true <-> is_defined (get (data response) "name") = true)).
Proof.
  intros Hp. apply produced_built in Hp as [[response Hb]|[rre ->]].
  - destruct (buildSendResponse_inv response r Hb) as (Hs & Ht & Hf).
    unfold error_defined, messageId_defined.
    destruct (success r) eqn:Hsucc.
    + destruct Ht as (Hd & Hm & He); [reflexivity|]. rewrite Hm, He.
      split; [split; discriminate|]. split; [reflexivity|]. split; [discriminate|].
      intros _. split; [reflexivity|]. exists response.
      symmetry in Hs. apply Z.eqb_eq in Hs. repeat split; auto.
    + destruct Hf as (Hm & He); [reflexivity|]. rewrite Hm, He.
      split; [split; reflexivity|]. split; [discriminate|]. split; [reflexivity|].
      discriminate.
  - unfold error_defined, messageId_defined. simpl.
    split; [split; reflexivity|]. split; [discriminate|]. split; [reflexivity|].
    discriminate.
Qed.

End HandlerProofs.

(** ** The theorems on the sample collaborators *)

Import Samples.

(** The handler of an application with SDK version 12.0.0 on Node 18, over
    the given HTTP/1.1 transport and batch client. *)
Local Abbreviation handler_sendBatchRequest transport batch :=
  (sendBatchRequest "12.0.0" "18.0.0" sample_createFirebaseError string transport batch).
Local Abbreviation handler_invokeRequestHandler transport :=
  (invokeRequestHandler "12.0.0" "18.0.0" sample_createFirebaseError sample_getErrorCode
     transport "fcm.googleapis.com" "/fcm/send" (JObj [("to", JStr "token")])).
Local Abbreviation handler_invokeHttp transport :=
  (invokeHttpRequestHandlerForSendResponse "12.0.0" "18.0.0" sample_createFirebaseError
     transport "fcm.googleapis.com" "/v1/projects/p/messages:send"
     (JObj [("token", JStr "token")])).
Local Abbreviation handler_invokeHttp2 transport2 :=
  (invokeHttp2RequestHandlerForSendResponse "12.0.0" "18.0.0" sample_createFirebaseError
     nat transport2 "fcm.googleapis.com" "/v1/projects/p/messages:send"
     (JObj [("token", JStr "token")])).

Lemma sendBatchRequest_counts_and_order_witness :
  (forall b,
     handler_sendBatchRequest offline sample_BatchRequestClient_send ["a"; "stale"; "c"]
       = Resolved b ->
     length (responses b) = 3%nat /\ successCount b = 2 /\ failureCount b = 1 /\
     map success (responses b) = [true; false; true]) /\
  exists b,
    handler_sendBatchRequest offline sample_BatchRequestClient_send ["a"; "stale"; "c"]
      = Resolved b.
Proof.
  destruct (sendBatchRequest_counts_and_order "12.0.0" "18.0.0" sample_createFirebaseError
              string offline sample_BatchRequestClient_send sample_answers
              ["a"; "stale"; "c"] (map sample_reply ["a"; "stale"; "c"])) as [Hall Hex].
  - reflexivity.
  - repeat constructor.
  - split.
    + intros b Hb. destruct (Hall b Hb) as (Hlen & _ & Hsc & Hfc & _).
      vm_compute in Hb. injection Hb as <-. vm_compute. auto.
    + apply Hex. repeat constructor; vm_compute; intros; try reflexivity; discriminate.
Defined.

Lemma sendBatchRequest_empty_witness :
  handler_sendBatchRequest offline sample_BatchRequestClient_send [] =
    Resolved {| responses := []; successCount := 0; failureCount := 0 |}.
Proof.
  apply (sendBatchRequest_empty "12.0.0" "18.0.0" sample_createFirebaseError string
           offline sample_BatchRequestClient_send sample_answers []).
  - reflexivity.
  - constructor.
Defined.

Lemma sendBatchRequest_encoder_failure_witness :
  (forall b,
     handler_sendBatchRequest offline
       (failing_BatchRequestClient_send (ThrownFirebaseError network_error))
       ["a"; "b"] <> Resolved b) /\
  exists e,
    handler_sendBatchRequest offline
      (failing_BatchRequestClient_send (ThrownFirebaseError network_error))
      ["a"; "b"] = Rejected (ThrownFirebaseError e) /\
    normalized (ThrownFirebaseError e) = true /\
    ThrownFirebaseError network_error = ThrownFirebaseError e.
Proof.
  apply (sendBatchRequest_encoder_failure "12.0.0" "18.0.0" sample_createFirebaseError
           string offline
           (failing_BatchRequestClient_send (ThrownFirebaseError network_error))
           ["a"; "b"] (ThrownFirebaseError network_error)); reflexivity.
Defined.

Lemma invokeRequestHandler_success_iff_witness :
  (forall v,
     handler_invokeRequestHandler (constant_transport (Resolved sent_response))
       = Resolved v <->
     isJson sent_response = true /\
     truthy (sample_getErrorCode (data sent_response)) = false /\
     v = data sent_response) /\
  (isJson sent_response = false \/
   truthy (sample_getErrorCode (data sent_response)) = true ->
   handler_invokeRequestHandler (constant_transport (Resolved sent_response)) =
     Rejected (ThrownFirebaseError
                 (sample_createFirebaseError {| response := sent_response |}))).
Proof.
  apply (invokeRequestHandler_success_iff "12.0.0" "18.0.0" sample_createFirebaseError
           sample_getErrorCode (constant_transport (Resolved sent_response))
           "fcm.googleapis.com" "/fcm/send" (JObj [("to", JStr "token")]) sent_response).
  reflexivity.
Defined.

Lemma normalized_error_propagated_unchanged_witness :
  handler_invokeRequestHandler offline = Rejected (ThrownFirebaseError network_error) /\
  handler_invokeHttp offline = Rejected (ThrownFirebaseError network_error) /\
  handler_sendBatchRequest offline
    (failing_BatchRequestClient_send (ThrownFirebaseError network_error)) ["a"] =
    Rejected (ThrownFirebaseError network_error).
Proof.
  destruct (normalized_error_propagated_unchanged "12.0.0" "18.0.0"
              sample_createFirebaseError sample_getErrorCode string nat
              offline
              (constant_transport (Rejected (ThrownFirebaseError network_error)))
              (failing_BatchRequestClient_send (ThrownFirebaseError network_error))
              (ThrownFirebaseError network_error))
    as (Hraw & Hsingle & _ & Hbatch).
  - reflexivity.
  - split; [apply Hraw; reflexivity|].
    split; [apply Hsingle; reflexivity | apply Hbatch; reflexivity].
Defined.

Lemma invokeHttp_send_response_witness :
  handler_invokeHttp (constant_transport (Resolved sent_response)) =
    Resolved {| success := true;
                messageId := Some (JStr "projects/p/messages/123");
                error := None |} /\
  handler_invokeHttp (constant_transport (Resolved bad_token_response)) =
    Resolved {| success := false;
                messageId := None;
                error := Some {| code := "messaging/invalid-argument";
                                 message := "Invalid argument" |} |}.
Proof.
  split.
  - apply (proj1 (invokeHttp_send_response "12.0.0" "18.0.0" sample_createFirebaseError
             (constant_transport (Resolved sent_response))
             "fcm.googleapis.com" "/v1/projects/p/messages:send"
             (JObj [("token", JStr "token")]))
             sent_response);
      reflexivity.
  - apply (proj1 (proj2 (invokeHttp_send_response "12.0.0" "18.0.0"
             sample_createFirebaseError
             (constant_transport (Resolved bad_token_response))
             "fcm.googleapis.com" "/v1/projects/p/messages:send"
             (JObj [("token", JStr "token")])))
             bad_token_response);
      [reflexivity | discriminate].
Defined.

Lemma invokeHttp2_same_contract_witness :
  handler_invokeHttp2 (constant_transport (Resolved unregistered_response)) 7%nat =
  handler_invokeHttp (constant_transport (Resolved unregistered_response)).
Proof.
  apply (invokeHttp2_same_contract "12.0.0" "18.0.0" sample_createFirebaseError nat
           (constant_transport (Resolved unregistered_response))
           (constant_transport (Resolved unregistered_response))).
  reflexivity.
Defined.

Lemma SendResponse_fields_witness :
  (error_defined (buildSendResponseFromError sample_createFirebaseError
                    {| response := unregistered_response |}) = true <->
   success (buildSendResponseFromError sample_createFirebaseError
              {| response := unregistered_response |}) = false) /\
  (messageId_defined (buildSendResponseFromError sample_createFirebaseError
                        {| response := unregistered_response |}) = true ->
   success (buildSendResponseFromError sample_createFirebaseError
              {| response := unregistered_response |}) = true).
Proof.
  destruct (SendResponse_fields "12.0.0" "18.0.0" sample_createFirebaseError string nat
              (constant_transport
                 (Rejected (ThrownRequestResponseError {| response := unregistered_response |})))
              (constant_transport (Resolved sent_response))
              sample_BatchRequestClient_send
              (buildSendResponseFromError sample_createFirebaseError
                 {| response := unregistered_response |}))
    as (Herr & Hid & _).
  - apply produced_http
      with (host := "fcm.googleapis.com") (path := "/fcm/send") (requestData := JObj []).
    reflexivity.
  - split; assumption.
Defined.

(** C2, counterexample: a status 200 response whose body has no [name]
    gives a [SendResponse] with [success] true in which neither [messageId]
    nor [error] is defined. *)
Lemma SendResponse_success_without_messageId :
  handler_invokeHttp (constant_transport (Resolved nameless_response)) =
    Resolved {| success := true; messageId := Some JUndefined; error := None |} /\
  produced "12.0.0" "18.0.0" sample_createFirebaseError string nat
    (constant_transport (Resolved nameless_response))
    (constant_transport (Resolved nameless_response))
    sample_BatchRequestClient_send
    {| success := true; messageId := Some JUndefined; error := None |} /\
  ~ exactly_one_defined {| success := true; messageId := Some JUndefined; error := None |}.
Proof.
  split; [reflexivity|]. split.
  - apply produced_http
      with (host := "fcm.googleapis.com") (path := "/fcm/send") (requestData := JObj []).
    reflexivity.
  - intros [[_ H] _]. specialize (H eq_refl). discriminate H.
Qed.

(** C3, counterexample: when the transport fails with an error that is not
    a transport error carrying a response, here the normalized network
    error, the single send rejects: it does not resolve with a failure
    [SendResponse]. *)
Lemma invokeHttp_rejects_on_network_error :
  handler_invokeHttp offline = Rejected (ThrownFirebaseError network_error) /\
  ~ exists r : SendResponse, handler_invokeHttp offline = Resolved r.
Proof.
  split; [reflexivity|].
  intros [r Hr]. discriminate Hr.
Qed.

(** A status 200 response whose body is [null] makes the builder throw
    while it reads [name]; the single send then rejects with that
    [TypeError], and so does a batch that holds such a part. *)
Example null_body_rejects :
  handler_invokeHttp
    (constant_transport (Resolved {| status := 200; data := JNull; isJson := true |})) =
    Rejected ThrownTypeError /\
  handler_sendBatchRequest offline
    (fixed_BatchRequestClient_send
       [sent_response; {| status := 200; data := JNull; isJson := true |}])
    ["a"; "b"] = Rejected ThrownTypeError.
Proof. split; reflexivity. Qed.

End MessagingProofs.

(** * Properties of the tenant configuration object *)

Module AuthProofs.
Import Auth.

(** ** Strings *)

Lemma append_length (a b : string) :
  String.length (a +:+ b) = (String.length a + String.length b)%nat.
Proof. induction a as [|c a IH]; simpl; [reflexivity | rewrite IH; reflexivity]. Qed.

Lemma append_inj_same_length (a a' b b' : string) :
  a +:+ b = a' +:+ b' ->
  String.length a = String.length a' ->
  a = a' /\ b = b'.
Proof.
  revert a'. induction a as [|c a IH]; intros [|c' a'] H Hlen; simpl in *;
    try discriminate; auto.
  injection H as -> H. destruct (IH a' H) as [-> ->]; [lia | auto].
Qed.

Lemma strip_literal_spec (prefix s rest : string) :
  strip_literal prefix s = Some rest <-> s = prefix +:+ rest.
Proof.
  revert s. induction prefix as [|a prefix IH]; intros s; simpl.
  - split; [intros [= ->]; reflexivity | intros ->; reflexivity].
  - destruct s as [|b s].
    + split; discriminate.
    + destruct (Ascii.eqb_spec a b) as [->|Hab].
      * rewrite IH. split; [intros ->; reflexivity | intros [= ->]; reflexivity].
      * split; [discriminate | intros [= ? ?]; congruence].
Qed.

Lemma match_group_to_end_spec (s group : string) :
  match_group_to_end s = Some group <-> group = s /\ line_terminator_free s = true.
Proof.
  revert group. induction s as [|c s IH]; intros group; simpl.
  - split; [intros [= <-]; auto | intros [-> _]; reflexivity].
  - destruct (is_line_terminator c); simpl.
    + split; [discriminate | intros [_ ?]; discriminate].
    + destruct (match_group_to_end s) as [g|]; simpl.
      * destruct (proj1 (IH g) eq_refl) as [-> Hs].
        split; [intros [= <-]; auto | intros [-> _]; reflexivity].
      * split; [discriminate|]. intros [-> Hs].
        assert (Hnone : None = Some s) by (apply IH; auto). discriminate Hnone.
Qed.

Lemma match_here_spec (s group : string) :
  match_here s = Some group <->
  s = "/tenants/" +:+ group /\ line_terminator_free group = true.
Proof.
  unfold match_here.
  destruct (strip_literal "/tenants/" s) as [rest|] eqn:Hstrip.
  - apply strip_literal_spec in Hstrip. rewrite match_group_to_end_spec. subst s.
    split.
    + intros [-> ?]. auto.
    + intros [H ?]. apply append_inj_same_length in H as [_ ->]; auto.
  - split; [discriminate|]. intros [Hs _].
    apply strip_literal_spec in Hs. congruence.
Qed.

Lemma regexp_match_unfold (s : string) :
  regexp_match s =
    match match_here s with
    | Some group => Some ["/tenants/" +:+ group; group]
    | None =>
        match s with
        | EmptyString => None
        | String _ rest => regexp_match rest
        end
    end.
Proof. destruct s; reflexivity. Qed.

(** The leftmost successful attempt decides the match. *)
Lemma regexp_match_cases (s : string) :
  (exists pre t,
     regexp_match s = Some ["/tenants/" +:+ t; t] /\ first_tenants_match s pre t) \/
  (regexp_match s = None /\
   forall pre t, s = pre +:+ "/tenants/" +:+ t -> line_terminator_free t = false).
Proof.
  induction s as [|c s IH]; rewrite regexp_match_unfold.
  - destruct (match_here "") as [g|] eqn:Hm; [discriminate Hm|].
    right. split; [reflexivity|]. intros pre t H.
    apply (f_equal String.length) in H. rewrite append_length in H. simpl in H. lia.
  - destruct (match_here (String c s)) as [g|] eqn:Hm.
    + left. exists "", g. split; [reflexivity|].
      apply match_here_spec in Hm as [Hs Hg].
      repeat split; auto. intros; simpl; lia.
    + assert (Hnot : forall t, String c s = "/tenants/" +:+ t ->
                               line_terminator_free t = false).
      { intros t Ht. destruct (line_terminator_free t) eqn:Hfree; [|reflexivity].
        assert (match_here (String c s) = Some t) by (apply match_here_spec; auto).
        congruence. }
      destruct IH as [(pre & t & Hr & Hs & Hfree & Hmin)|[Hr Hall]].
      * left. exists (String c pre), t. split; [exact Hr|].
        repeat split; [simpl; rewrite Hs; reflexivity | exact Hfree |].
        intros [|c' pre'] t' H' Hfree'.
        -- rewrite (Hnot t' H') in Hfree'. discriminate.
        -- simpl in H'. injection H' as _ H'. simpl.
           specialize (Hmin pre' t' H' Hfree'). lia.
      * right. split; [exact Hr|].
        intros [|c' pre'] t' H'.
        -- apply Hnot, H'.
        -- simpl in H'. injection H' as _ H'. apply (Hall pre' t' H').
Qed.

Lemma first_tenants_match_unique (s pre t pre' t' : string) :
  first_tenants_match s pre t -> first_tenants_match s pre' t' -> pre = pre' /\ t = t'.
Proof.
  intros (Hs & Hfree & Hmin) (Hs' & Hfree' & Hmin').
  pose proof (Hmin pre' t' Hs' Hfree') as H1.
  pose proof (Hmin' pre t Hs Hfree) as H2.
  rewrite Hs in Hs'.
  apply append_inj_same_length in Hs' as [-> Hrest]; [|lia].
  apply append_inj_same_length in Hrest as [_ ->]; auto.
Qed.

Lemma getTenantIdFromResourceName_Some (resourceName t : string) :
  getTenantIdFromResourceName resourceName = Some t <->
  exists pre, first_tenants_match resourceName pre t.
Proof.
  unfold getTenantIdFromResourceName.
  destruct (regexp_match_cases resourceName) as [(pre & t0 & -> & Hfirst)|[-> Hall]]; simpl.
  - split.
    + intros [= <-]. exists pre. exact Hfirst.
    + intros [pre' Hfirst'].
      destruct (first_tenants_match_unique _ _ _ _ _ Hfirst Hfirst') as [_ ->]. reflexivity.
  - split; [discriminate|]. intros [pre (Hs & Hfree & _)].
    rewrite (Hall pre t Hs) in Hfree. discriminate.
Qed.

Lemma getTenantIdFromResourceName_None (resourceName : string) :
  getTenantIdFromResourceName resourceName = None <->
  forall pre t,
    resourceName = pre +:+ "/tenants/" +:+ t -> line_terminator_free t = false.
Proof.
  unfold getTenantIdFromResourceName.
  destruct (regexp_match_cases resourceName) as [(pre & t0 & -> & Hfirst)|[-> Hall]]; simpl.
  - split; [discriminate|]. intros Hall. destruct Hfirst as (Hs & Hfree & _).
    rewrite (Hall pre t0 Hs) in Hfree. discriminate.
  - split; auto.
Qed.

(** ** Completions *)

Lemma bind_Return_inv {E A B} (c : Completion E A) (k : A -> Completion E B) (b : B) :
  bind c k = Return b -> exists a, c = Return a /\ k a = Return b.
Proof. destruct c as [a|e]; simpl; [eauto | discriminate]. Qed.

Lemma invalid_argument_is (msg : string) (A : Type) (err : Thrown) :
  @invalid_argument A msg = Throw err -> is_invalid_argument err.
Proof. intros [= <-]. exists msg. reflexivity. Qed.

Lemma check_keys_throws (label : string) (keys : list string) (err : Thrown) :
  check_keys label keys = Throw err -> is_invalid_argument err.
Proof.
  induction keys as [|key keys IH]; simpl; [discriminate|].
  destruct (in_validKeys key); simpl; [exact IH|].
  apply invalid_argument_is.
Qed.

Lemma get_JNull_object (v : JsValue) (key : string) :
  get v key = JNull -> isNonNullObject v = true.
Proof. destruct v; simpl; try discriminate; reflexivity. Qed.

Section TenantProofs.

Variable EmailSignInConfig_buildServerRequest :
  JsValue -> Completion Thrown (gmap string JsValue).
Variable MultiFactorAuthConfig_buildServerRequest : JsValue -> Completion Thrown JsValue.
Variable validateTestPhoneNumbers : JsValue -> Completion Thrown unit.
Variable SmsRegionsAuthConfig_validate : JsValue -> Completion Thrown unit.
Variable RecaptchaAuthConfig_buildServerRequest : JsValue -> Completion Thrown JsValue.
Variable PasswordPolicyAuthConfig_buildServerRequest : JsValue -> Completion Thrown JsValue.
Variable EmailPrivacyAuthConfig_validate : JsValue -> Completion Thrown unit.

Local Abbreviation validate :=
  (Auth.validate EmailSignInConfig_buildServerRequest
     MultiFactorAuthConfig_buildServerRequest validateTestPhoneNumbers
     SmsRegionsAuthConfig_validate RecaptchaAuthConfig_buildServerRequest
     PasswordPolicyAuthConfig_buildServerRequest EmailPrivacyAuthConfig_validate).
Local Abbreviation buildServerRequest :=
  (Auth.buildServerRequest EmailSignInConfig_buildServerRequest
     MultiFactorAuthConfig_buildServerRequest validateTestPhoneNumbers
     SmsRegionsAuthConfig_validate RecaptchaAuthConfig_buildServerRequest
     PasswordPolicyAuthConfig_buildServerRequest EmailPrivacyAuthConfig_validate).

Lemma when_defined_Return {A} (value : JsValue) (check : JsValue -> Completion Thrown A) :
  when_defined value check = Return tt ->
  is_defined value = true -> exists a, check value = Return a.
Proof.
  unfold when_defined. intros H Hd. rewrite Hd in H.
  destruct (check value) as [a|e]; [eauto | discriminate].
Qed.

Lemma when_defined_Throw {A} (value : JsValue) (check : JsValue -> Completion Thrown A)
    (err : Thrown) :
  when_defined value check = Throw err -> check value = Throw err.
Proof.
  unfold when_defined. destruct (is_defined value); [|discriminate].
  destruct (check value) as [a|e]; simpl; [discriminate | intros [= ->]; reflexivity].
Qed.

(** The builders that [validate] has run return again in
    [buildServerRequest]. *)
Lemma validate_passes (request : JsValue) (createRequest : bool) :
  validate request createRequest = Return tt ->
  (is_defined (get request "emailSignInConfig") = true ->
   exists r, EmailSignInConfig_buildServerRequest (get request "emailSignInConfig") = Return r) /\
  (is_defined (get request "multiFactorConfig") = true ->
   exists r, MultiFactorAuthConfig_buildServerRequest (get request "multiFactorConfig") = Return r) /\
  (is_defined (get request "recaptchaConfig") = true ->
   exists r, RecaptchaAuthConfig_buildServerRequest (get request "recaptchaConfig") = Return r) /\
  (is_defined (get request "passwordPolicyConfig") = true ->
   exists r, PasswordPolicyAuthConfig_buildServerRequest (get request "passwordPolicyConfig")
             = Return r).
Proof.
  unfold Auth.validate. destruct (negb (isNonNullObject request)); [discriminate|].
  intros H.
  apply bind_Return_inv in H as (_ & _ & H).
  apply bind_Return_inv in H as (_ & _ & H).
  apply bind_Return_inv in H as ([] & Hemail & H).
  apply bind_Return_inv in H as (_ & _ & H).
  apply bind_Return_inv in H as ([] & Hmfa & H).
  apply bind_Return_inv in H as (_ & _ & H).
  apply bind_Return_inv in H as ([] & Hrecaptcha & H).
  apply bind_Return_inv in H as ([] & Hpassword & H).
  repeat split; eauto using when_defined_Return.
Qed.

(** The error of a create request that carries [null] test phone numbers. *)
Lemma validate_create_null (request : JsValue) :
  get request "testPhoneNumbers" = JNull ->
  exists err,
    validate request true = Throw err /\
    (is_invalid_argument err \/
     EmailSignInConfig_buildServerRequest (get request "emailSignInConfig") = Throw err).
Proof.
  intros Hnull. unfold Auth.validate.
  rewrite (get_JNull_object _ _ Hnull). simpl. rewrite Hnull. simpl.
  destruct (check_keys _ _) as [[]|e] eqn:Hkeys; simpl.
  2:{ exists e. split; [reflexivity|]. left. eapply check_keys_throws, Hkeys. }
  destruct (is_defined (get request "displayName") &&
            negb (isNonEmptyString (get request "displayName"))); simpl.
  { eexists. split; [reflexivity|]. left. eexists. reflexivity. }
  destruct (when_defined _ EmailSignInConfig_buildServerRequest) as [[]|e] eqn:Hemail; simpl.
  2:{ exists e. split; [reflexivity|]. right. eapply when_defined_Throw, Hemail. }
  eexists. split; [reflexivity|]. left. eexists. reflexivity.
Qed.

(** C9: a [null] in [testPhoneNumbers] is treated by request kind.  For an
    update request that passes validation, [buildServerRequest] returns a
    server request whose [testPhoneNumbers] is the empty object, and every
    server request it returns for such an update has it; for a create
    request the call throws, and the error is a [FirebaseAuthError] with
    code [INVALID_ARGUMENT] unless it is the one that the validation of
    [emailSignInConfig], which runs first, has raised. *)
Theorem buildServerRequest_null_testPhoneNumbers (tenantOptions : JsValue) :
  get tenantOptions "testPhoneNumbers" = JNull ->
  (validate tenantOptions false = Return tt ->
   exists request : gmap string JsValue,
     buildServerRequest tenantOptions false = Return request /\
     request !! "testPhoneNumbers" = Some (JObj [])) /\
  (forall request : gmap string JsValue,
     buildServerRequest tenantOptions false = Return request ->
     request !! "testPhoneNumbers" = Some (JObj [])) /\
  (exists err,
     buildServerRequest tenantOptions true = Throw err /\
     (is_invalid_argument err \/
      EmailSignInConfig_buildServerRequest (get tenantOptions "emailSignInConfig") = Throw err)).
Proof.
  intros Hnull.
  assert (Hall : forall request : gmap string JsValue,
             buildServerRequest tenantOptions false = Return request ->
             request !! "testPhoneNumbers" = Some (JObj [])).
  { intros request. unfold Auth.buildServerRequest.
    intros H. apply bind_Return_inv in H as (_ & _ & H).
    apply bind_Return_inv in H as (request0 & _ & H).
    rewrite Hnull in H. simpl in H.
    apply bind_Return_inv in H as (request1 & _ & H).
    apply bind_Return_inv in H as (request2 & H2 & H).
    apply bind_Return_inv in H as (request3 & H3 & H).
    injection H as <-.
    assert (H2' : request2 !! "testPhoneNumbers" = Some (JObj [])).
    { destruct (is_defined (get tenantOptions "recaptchaConfig")).
      - apply bind_Return_inv in H2 as (v & _ & [= <-]).
        rewrite lookup_insert_ne by done.
        destruct (is_defined (get tenantOptions "smsRegionConfig"));
          rewrite ?(lookup_insert_ne _ "smsRegionConfig") by done;
          apply lookup_insert_eq.
      - injection H2 as <-.
        destruct (is_defined (get tenantOptions "smsRegionConfig"));
          rewrite ?(lookup_insert_ne _ "smsRegionConfig") by done;
          apply lookup_insert_eq. }
    assert (H3' : request3 !! "testPhoneNumbers" = Some (JObj [])).
    { destruct (is_defined (get tenantOptions "passwordPolicyConfig")).
      - apply bind_Return_inv in H3 as (v & _ & [= <-]).
        rewrite lookup_insert_ne by done. exact H2'.
      - injection H3 as <-. exact H2'. }
    destruct (is_defined (get tenantOptions "emailPrivacyConfig"));
      rewrite ?lookup_insert_ne by done; exact H3'. }
  split; [|split; [exact Hall|]].
  - intros Hvalid.
    destruct (validate_passes _ _ Hvalid) as (Hemail & Hmfa & Hrecaptcha & Hpassword).
    assert (exists request, buildServerRequest tenantOptions false = Return request)
      as [request Hreq].
    { unfold Auth.buildServerRequest. rewrite Hvalid. simpl.
      destruct (is_defined (get tenantOptions "emailSignInConfig"));
        [destruct Hemail as [r0 ->]; [reflexivity|]|]; simpl;
      (destruct (is_defined (get tenantOptions "multiFactorConfig"));
        [destruct Hmfa as [r1 ->]; [reflexivity|]|]); simpl;
      (destruct (is_defined (get tenantOptions "recaptchaConfig"));
        [destruct Hrecaptcha as [r2 ->]; [reflexivity|]|]); simpl;
      (destruct (is_defined (get tenantOptions "passwordPolicyConfig"));
        [destruct Hpassword as [r3 ->]; [reflexivity|]|]); simpl;
      eauto. }
    exists request. split; [exact Hreq | apply Hall, Hreq].
  - destruct (validate_create_null _ Hnull) as (err & Hv & Herr).
    exists err. split; [|exact Herr].
    unfold Auth.buildServerRequest. rewrite Hv. reflexivity.
Qed.

End TenantProofs.

Section ConstructorProofs.

Variables (EmailSignInConfig MultiFactorAuthConfig RecaptchaAuthConfig
           PasswordPolicyAuthConfig : Type).
Variable EmailSignInConfig_new : JsValue -> Completion Thrown EmailSignInConfig.
Variable MultiFactorAuthConfig_new : JsValue -> Completion Thrown MultiFactorAuthConfig.
Variable RecaptchaAuthConfig_new : JsValue -> Completion Thrown RecaptchaAuthConfig.
Variable PasswordPolicyAuthConfig_new : JsValue -> Completion Thrown PasswordPolicyAuthConfig.
Variable deepCopy : JsValue -> JsValue.

Local Abbreviation Tenant_init :=
  (Auth.Tenant_init EmailSignInConfig MultiFactorAuthConfig RecaptchaAuthConfig
     PasswordPolicyAuthConfig EmailSignInConfig_new MultiFactorAuthConfig_new
     RecaptchaAuthConfig_new PasswordPolicyAuthConfig_new deepCopy).
Local Abbreviation Tenant_new :=
  (Auth.Tenant_new EmailSignInConfig MultiFactorAuthConfig RecaptchaAuthConfig
     PasswordPolicyAuthConfig EmailSignInConfig_new MultiFactorAuthConfig_new
     RecaptchaAuthConfig_new PasswordPolicyAuthConfig_new deepCopy).
Local Abbreviation tenantId :=
  (Auth.tenantId EmailSignInConfig MultiFactorAuthConfig RecaptchaAuthConfig
     PasswordPolicyAuthConfig).

(** The rest of the constructor keeps the tenant id it is given. *)
Lemma Tenant_init_tenantId (tid : string) (response : JsValue) tenant :
  Tenant_init tid response = Return tenant -> tenantId tenant = tid.
Proof.
  unfold Auth.Tenant_init. intros H.
  apply bind_Return_inv in H as (c0 & _ & H).
  apply bind_Return_inv in H as (c1 & _ & H).
  apply bind_Return_inv in H as (c2 & _ & H).
  apply bind_Return_inv in H as (c3 & _ & H).
  injection H as <-. reflexivity.
Qed.

Lemma Tenant_new_outcome (response : JsValue) (resourceName : string) :
  get response "name" = JStr resourceName ->
  Tenant_new response =
    match getTenantIdFromResourceName resourceName with
    | None => Throw (ThrownFirebaseAuthError invalid_tenant_response)
    | Some tid =>
        if String.eqb tid "" then Throw (ThrownFirebaseAuthError invalid_tenant_response)
        else Tenant_init tid response
    end.
Proof.
  intros Hname. unfold Auth.Tenant_new, member.
  destruct response; simpl in Hname; try discriminate.
  simpl. fold (get (JObj fields) "name"). simpl. rewrite Hname. reflexivity.
Qed.

(** C10, as amended: [getTenantIdFromResourceName] returns the text that
    follows the first occurrence of [/tenants/] in the resource name up to
    its end, the first one, that is, after which no line terminator comes,
    and [null] when there is no such occurrence.  For a response whose
    [name] is that resource name, the constructor throws its internal-error
    [FirebaseAuthError] when the extraction gives [null] or the empty
    string; otherwise it goes on with the extracted value as [tenantId], and
    every tenant it returns has that [tenantId].  When the configuration
    objects nested in the response can be built, the constructor throws
    exactly when the extraction gives [null] or the empty string. *)
Theorem Tenant_tenantId_from_resource_name (response : JsValue) (resourceName : string) :
  get response "name" = JStr resourceName ->
  (forall s t,
     getTenantIdFromResourceName s = Some t <-> exists pre, first_tenants_match s pre t) /\
  (forall s,
     getTenantIdFromResourceName s = None <->
     forall pre t, s = pre +:+ "/tenants/" +:+ t -> line_terminator_free t = false) /\
  (getTenantIdFromResourceName resourceName = None \/
   getTenantIdFromResourceName resourceName = Some "" ->
   Tenant_new response = Throw (ThrownFirebaseAuthError invalid_tenant_response) /\
   errorInfo invalid_tenant_response = INTERNAL_ERROR) /\
  (forall tid,
     getTenantIdFromResourceName resourceName = Some tid -> tid <> "" ->
     Tenant_new response = Tenant_init tid response /\
     forall tenant, Tenant_new response = Return tenant -> tenantId tenant = tid) /\
  ((forall tid, exists tenant, Tenant_init tid response = Return tenant) ->
   ((exists err, Tenant_new response = Throw err) <->
    getTenantIdFromResourceName resourceName = None \/
    getTenantIdFromResourceName resourceName = Some "") /\
   (forall tid,
      getTenantIdFromResourceName resourceName = Some tid -> tid <> "" ->
      exists tenant, Tenant_new response = Return tenant /\ tenantId tenant = tid)).
Proof.
  intros Hname. pose proof (Tenant_new_outcome response resourceName Hname) as Hnew.
  split; [exact getTenantIdFromResourceName_Some|].
  split; [exact getTenantIdFromResourceName_None|].
  split; [|split].
  - intros [H|H]; rewrite H in Hnew; simpl in Hnew; auto.
  - intros tid Hid Hne. rewrite Hid in Hnew.
    destruct (String.eqb_spec tid ""); [contradiction|].
    split; [exact Hnew|]. intros tenant Ht. rewrite Hnew in Ht.
    apply Tenant_init_tenantId in Ht. exact Ht.
  - intros Hinit. split.
    + split.
      * intros [err Herr]. rewrite Hnew in Herr.
        destruct (getTenantIdFromResourceName resourceName) as [tid|]; [|auto].
        destruct (String.eqb_spec tid "") as [Heq|Hne]; [subst tid; auto|].
        destruct (Hinit tid) as [tenant Ht]. congruence.
      * intros [H|H]; rewrite H in Hnew; simpl in Hnew; eauto.
    + intros tid Hid Hne. rewrite Hid in Hnew.
      destruct (String.eqb_spec tid ""); [contradiction|].
      destruct (Hinit tid) as [tenant Ht]. exists tenant.
      split; [congruence|]. apply Tenant_init_tenantId in Ht. exact Ht.
Qed.

End ConstructorProofs.

(** ** The theorems on the sample collaborators *)

Import AuthSamples.

Lemma buildServerRequest_null_testPhoneNumbers_witness :
  (exists request : gmap string JsValue,
     buildServerRequest sample_EmailSignInConfig_buildServerRequest build_as_is accept
       accept build_as_is build_as_is accept clearing_update false = Return request /\
     request !! "testPhoneNumbers" = Some (JObj [])) /\
  (exists err,
     buildServerRequest sample_EmailSignInConfig_buildServerRequest build_as_is accept
       accept build_as_is build_as_is accept clearing_update true = Throw err /\
     (is_invalid_argument err \/
      sample_EmailSignInConfig_buildServerRequest (get clearing_update "emailSignInConfig")
      = Throw err)).
Proof.
  destruct (buildServerRequest_null_testPhoneNumbers
              sample_EmailSignInConfig_buildServerRequest build_as_is accept
              accept build_as_is build_as_is accept clearing_update)
    as (Hupdate & _ & Hcreate).
  - reflexivity.
  - split; [apply Hupdate; reflexivity | exact Hcreate].
Defined.

(** The create request with [null] test phone numbers is refused with the
    message of the check on [testPhoneNumbers]. *)
Example create_with_null_testPhoneNumbers :
  buildServerRequest sample_EmailSignInConfig_buildServerRequest build_as_is accept
    accept build_as_is build_as_is accept clearing_update true =
  invalid_argument
    (quote +:+ "CreateTenantRequest.testPhoneNumbers" +:+ quote +:+ " must be a non-null object.").
Proof. reflexivity. Qed.

Lemma Tenant_tenantId_from_resource_name_witness :
  getTenantIdFromResourceName "projects/project1/tenants/tenant1" = Some "tenant1" /\
  exists tenant,
    Tenant_new JsValue JsValue JsValue JsValue keep keep keep keep id tenant_response
      = Return tenant /\
    tenantId JsValue JsValue JsValue JsValue tenant = "tenant1".
Proof.
  split; [reflexivity|].
  destruct (Tenant_tenantId_from_resource_name JsValue JsValue JsValue JsValue
              keep keep keep keep id tenant_response "projects/project1/tenants/tenant1")
    as (_ & _ & _ & _ & Htotal).
  - reflexivity.
  - destruct Htotal as [_ Hreturns].
    + intros tid. eexists. reflexivity.
    + apply Hreturns; [reflexivity | discriminate].
Defined.

(** The resource name with two occurrences of [/tenants/]: the code returns
    what follows the first one, the claim asks for what follows the last
    one. *)
Lemma getTenantIdFromResourceName_not_last_occurrence :
  getTenantIdFromResourceName "projects/p/tenants/a/tenants/b" = Some "a/tenants/b" /\
  after_last_occurrence "projects/p/tenants/a/tenants/b" = Some "b" /\
  getTenantIdFromResourceName "projects/p/tenants/a/tenants/b" <>
    after_last_occurrence "projects/p/tenants/a/tenants/b".
Proof. repeat split. discriminate. Qed.

(** A line terminator after [/tenants/] makes the match fail although the
    pattern text is present. *)
Example getTenantIdFromResourceName_line_terminator :
  getTenantIdFromResourceName ("projects/p/tenants/a" +:+ String "010" "b") = None.
Proof. reflexivity. Qed.

End AuthProofs.

(** * Further properties of the messaging request handler *)

Module MessagingCoverage.
Import Messaging MessagingProofs.

Lemma map__explicit {A B} (f : A -> Completion Thrown B) (g : A -> B) (xs : list A) :
  Forall (fun x => f x = Return (g x)) xs -> map_ f xs = Return (map g xs).
Proof.
  induction 1 as [|x xs Hx _ IH]; simpl; [reflexivity|].
  rewrite Hx; simpl. rewrite IH; reflexivity.
Qed.

Lemma map__throws {A B} (f : A -> Completion Thrown B) (xs : list A) (err : Thrown) :
  map_ f xs = Throw err -> Exists (fun x => f x = Throw err) xs.
Proof.
  induction xs as [|x xs IH]; simpl; [discriminate|].
  destruct (f x) as [y|e] eqn:Hx; simpl.
  - destruct (map_ f xs) as [ys|e] eqn:Hxs; simpl; [discriminate|].
    intros [= ->]. right. apply IH. reflexivity.
  - intros [= ->]. left. exact Hx.
Qed.

Lemma map__returns {A B} (f : A -> Completion Thrown B) (xs : list A) (ys : list B) :
  map_ f xs = Return ys -> Forall (fun x => exists y, f x = Return y) xs.
Proof.
  intros H. apply map__aligned in H.
  induction H as [|x y xs ys Hx _ IH]; constructor; eauto.
Qed.

Section HandlerCoverage.

Variables (sdkVersion nodeVersion : string).
Variable createFirebaseError : RequestResponseError -> FirebaseError.
Variable getErrorCode : JsValue -> JsValue.
Variables (SubRequest Http2SessionHandler : Type).
Variable httpClient_send : HttpRequestConfig -> Promise RequestResponse.
Variable http2Client_send :
  Http2RequestConfig Http2SessionHandler -> Promise RequestResponse.
Variable BatchRequestClient_send :
  (HttpRequestConfig -> Promise RequestResponse) -> string -> list (string * string) ->
  list SubRequest -> Promise (list RequestResponse).

Local Abbreviation legacy_request := (Messaging.legacy_request sdkVersion nodeVersion).
Local Abbreviation invokeRequestHandler :=
  (Messaging.invokeRequestHandler sdkVersion nodeVersion createFirebaseError getErrorCode
     httpClient_send).
Local Abbreviation buildSendResponse := (Messaging.buildSendResponse createFirebaseError).
Local Abbreviation buildSendResponseFromError :=
  (Messaging.buildSendResponseFromError createFirebaseError).
Local Abbreviation invokeHttpRequestHandlerForSendResponse :=
  (Messaging.invokeHttpRequestHandlerForSendResponse sdkVersion nodeVersion
     createFirebaseError httpClient_send).
Local Abbreviation invokeHttp2RequestHandlerForSendResponse :=
  (Messaging.invokeHttp2RequestHandlerForSendResponse sdkVersion nodeVersion
     createFirebaseError Http2SessionHandler http2Client_send).
Local Abbreviation batchClient_send :=
  (Messaging.batchClient_send sdkVersion nodeVersion SubRequest httpClient_send
     BatchRequestClient_send).
Local Abbreviation sendBatchRequest :=
  (Messaging.sendBatchRequest sdkVersion nodeVersion createFirebaseError SubRequest
     httpClient_send BatchRequestClient_send).

(** The [SendResponse] of a part that can be read. *)
Lemma buildSendResponse_explicit (part : RequestResponse) :
  readable part ->
  buildSendResponse part = Return (built createFirebaseError part).
Proof.
  intros Hr. unfold built. destruct (Z.eqb_spec (status part) 200) as [Hs|Hs].
  - apply buildSendResponse_200; auto.
  - apply buildSendResponse_not_200; auto.
Qed.

Lemma buildSendResponse_returns_readable (part : RequestResponse) (r : SendResponse) :
  buildSendResponse part = Return r -> readable part /\ r = built createFirebaseError part.
Proof.
  intros H. assert (Hr : readable part).
  { intros Hs. destruct (is_nullish (data part)) eqn:Hd; [|reflexivity].
    unfold Messaging.buildSendResponse, member in H. simpl in H.
    rewrite Hs, Hd in H. discriminate. }
  split; [exact Hr|]. rewrite (buildSendResponse_explicit part Hr) in H.
  injection H as <-. reflexivity.
Qed.

(** X1: none of the four operations rejects with the raw transport error: a
    [RequestResponseError] never leaves the handler. *)
Theorem no_raw_transport_error_leaks (err : Thrown) :
  (forall host path requestData,
     invokeRequestHandler host path requestData = Rejected err ->
     instanceofRequestResponseError err = false) /\
  (forall host path requestData,
     invokeHttpRequestHandlerForSendResponse host path requestData = Rejected err ->
     instanceofRequestResponseError err = false) /\
  (forall host path requestData session,
     invokeHttp2RequestHandlerForSendResponse host path requestData session = Rejected err ->
     instanceofRequestResponseError err = false) /\
  (forall requests,
     sendBatchRequest requests = Rejected err ->
     instanceofRequestResponseError err = false).
Proof.
  repeat split; intros *.
  - rewrite invokeRequestHandler_outcome.
    destruct (httpClient_send _) as [response|[e|e|]].
    + destruct (_ && _); [discriminate | intros [= <-]; reflexivity].
    + intros [= <-]; reflexivity.
    + intros [= <-]; reflexivity.
    + intros [= <-]; reflexivity.
  - rewrite invokeHttp_outcome.
    destruct (httpClient_send _) as [response|[e|e|]]; try (intros [= <-]; reflexivity);
      try discriminate.
    destruct (buildSendResponse response) as [r|e] eqn:Hb; simpl; [discriminate|].
    apply buildSendResponse_throws in Hb as [-> _]. intros [= <-]; reflexivity.
  - rewrite invokeHttp2_outcome.
    destruct (http2Client_send _) as [response|[e|e|]]; try (intros [= <-]; reflexivity);
      try discriminate.
    destruct (buildSendResponse response) as [r|e] eqn:Hb; simpl; [discriminate|].
    apply buildSendResponse_throws in Hb as [-> _]. intros [= <-]; reflexivity.
  - rewrite sendBatchRequest_outcome.
    destruct (batchClient_send requests) as [parts|[e|e|]];
      try (intros [= <-]; reflexivity).
    destruct (map_ buildSendResponse parts) as [rs|[e|e|]];
      try (intros [= <-]; reflexivity); discriminate.
Qed.

(** X2: a single send rejects in two cases only: the transport failed with
    an error that is not a [RequestResponseError], which is the error the
    call rejects with, or the transport delivered a status 200 response
    whose body is [null] or [undefined], and the call rejects with the
    [TypeError] of reading [name]. *)
Theorem single_send_rejects_iff
    (host path : string) (requestData : JsValue) (err : Thrown) :
  invokeHttpRequestHandlerForSendResponse host path requestData = Rejected err <->
  (httpClient_send (legacy_request host path requestData) = Rejected err /\
   instanceofRequestResponseError err = false) \/
  (exists response,
     httpClient_send (legacy_request host path requestData) = Resolved response /\
     status response = 200 /\ is_nullish (data response) = true /\
     err = ThrownTypeError).
Proof.
  rewrite invokeHttp_outcome.
  destruct (httpClient_send _) as [response|e].
  - destruct (buildSendResponse response) as [r|e] eqn:Hb; simpl.
    + split; [discriminate|]. intros [[? _]|(response' & [= <-] & Hs & Hd & _)];
        [discriminate|].
      unfold Messaging.buildSendResponse, member in Hb. simpl in Hb.
      rewrite Hs, Hd in Hb. discriminate.
    + apply buildSendResponse_throws in Hb as (-> & Hs & Hd). split.
      * intros [= <-]. right. exists response. auto.
      * intros [[? _]|(_ & _ & _ & _ & ->)]; [discriminate | reflexivity].
  - split.
    + destruct e as [rre|e|]; try discriminate; intros [= <-]; left; auto.
    + intros [[[= ->] Hk]|(response & ? & _)]; [|discriminate].
      destruct err; [discriminate | reflexivity | reflexivity].
Qed.

(** X4: the counts of a batch result are the counts of the status codes of
    the decoded parts: [success] of the i-th response tells whether the
    i-th part had status 200, [successCount] is the number of parts with
    status 200 and [failureCount] the number of the other parts; there is
    one response per decoded part, however many sub-requests were sent. *)
Theorem sendBatchRequest_counts_by_status
    (requests : list SubRequest) (parts : list RequestResponse) (b : BatchResponse) :
  batchClient_send requests = Resolved parts ->
  sendBatchRequest requests = Resolved b ->
  responses b = map (built createFirebaseError) parts /\
  length (responses b) = length parts /\
  map success (responses b) = map (fun part => Z.eqb (status part) 200) parts /\
  successCount b =
    Z.of_nat (length (List.filter (fun part => Z.eqb (status part) 200) parts)) /\
  failureCount b =
    Z.of_nat (length (List.filter (fun part => negb (Z.eqb (status part) 200)) parts)).
Proof.
  intros Hsend Hb.
  destruct (sendBatchRequest_resolved _ _ _ _ _ _ _ _ Hb) as (parts' & Hsend' & Hmap & Hsc & Hfc).
  rewrite Hsend in Hsend'. injection Hsend' as <-.
  assert (Hrs : responses b = map (built createFirebaseError) parts).
  { pose proof (map__returns _ _ _ Hmap) as Hall.
    rewrite (map__explicit buildSendResponse (built createFirebaseError)) in Hmap.
    - injection Hmap as <-. reflexivity.
    - eapply Forall_impl; [exact Hall|]. intros part [r Hr].
      apply buildSendResponse_returns_readable in Hr as [Hr _].
      apply buildSendResponse_explicit, Hr. }
  rewrite Hfc, Hsc, Hrs. clear.
  assert (Hsucc : forall part, success (built createFirebaseError part)
                               = Z.eqb (status part) 200).
  { intros part. unfold built. destruct (Z.eqb (status part) 200); reflexivity. }
  split; [reflexivity|]. split; [apply length_map|].
  split; [rewrite List.map_map; apply List.map_ext; exact Hsucc|].
  rewrite length_map.
  induction parts as [|part parts IH]; simpl; [auto|].
  rewrite Hsucc. destruct (Z.eqb (status part) 200); simpl; lia.
Qed.

(** X5: once the batch client has decoded the parts, the batch rejects only
    with the [TypeError] of a part that has status 200 and a [null] or
    [undefined] body, and it does reject when there is such a part. *)
Theorem sendBatchRequest_rejects_iff
    (requests : list SubRequest) (parts : list RequestResponse) (err : Thrown) :
  batchClient_send requests = Resolved parts ->
  (sendBatchRequest requests = Rejected err <->
   err = ThrownTypeError /\
   Exists (fun part => status part = 200 /\ is_nullish (data part) = true) parts).
Proof.
  intros Hsend. rewrite sendBatchRequest_outcome, Hsend.
  destruct (map_ buildSendResponse parts) as [rs|e] eqn:Hmap.
  - split; [discriminate|]. intros [_ Hex].
    apply map__returns in Hmap. rewrite Forall_forall in Hmap.
    apply Exists_exists in Hex as (part & Hin & Hs & Hd).
    destruct (Hmap part Hin) as [r Hr].
    apply buildSendResponse_returns_readable in Hr as [Hr _].
    rewrite (Hr Hs) in Hd. discriminate.
  - pose proof (map__throws _ _ _ Hmap) as Hex.
    assert (He : e = ThrownTypeError).
    { apply Exists_exists in Hex as (part & _ & Hp).
      apply buildSendResponse_throws in Hp as [-> _]. reflexivity. }
    subst e. split.
    + intros [= <-]. split; [reflexivity|].
      eapply Exists_impl; [exact Hex|]. intros part Hp.
      apply buildSendResponse_throws in Hp as (_ & Hs & Hd). auto.
    + intros [-> _]. reflexivity.
Qed.

(** X7: failures of items never fail the batch: when no decoded part has
    status 200 the batch resolves, every response is a failure carrying the
    classified error of its own part, [successCount] is 0 and
    [failureCount] is the number of parts. *)
Theorem sendBatchRequest_all_failed
    (requests : list SubRequest) (parts : list RequestResponse) :
  batchClient_send requests = Resolved parts ->
  Forall (fun part => status part <> 200) parts ->
  sendBatchRequest requests =
    Resolved
      {| responses :=
           map (fun part =>
                  {| success := false;
                     messageId := None;
                     error := Some (createFirebaseError {| response := part |}) |})
               parts;
         successCount := 0;
         failureCount := Z.of_nat (length parts) |}.
Proof.
  intros Hsend Hall. rewrite sendBatchRequest_outcome, Hsend.
  rewrite (map__explicit buildSendResponse
             (fun part => {| success := false; messageId := None;
                             error := Some (createFirebaseError {| response := part |}) |})).
  - rewrite length_map.
    assert (Hnone : forall ps : list RequestResponse,
               List.filter success
                 (map (fun part => {| success := false; messageId := None;
                         error := Some (createFirebaseError {| response := part |}) |}) ps)
               = []).
    { induction ps; simpl; auto. }
    rewrite Hnone. simpl. f_equal. f_equal. lia.
  - eapply Forall_impl; [exact Hall|]. intros part Hs.
    apply buildSendResponse_not_200, Hs.
Qed.

(** X8: when the transport fails, [invokeRequestHandler] never resolves: a
    [RequestResponseError] is rejected as the classified error of the
    response it carries, whatever that response holds, and any other error
    is rejected as it is. *)
Theorem invokeRequestHandler_transport_failure
    (host path : string) (requestData : JsValue) (err : Thrown) :
  httpClient_send (legacy_request host path requestData) = Rejected err ->
  invokeRequestHandler host path requestData =
    Rejected
      match err with
      | ThrownRequestResponseError rre => ThrownFirebaseError (createFirebaseError rre)
      | _ => err
      end.
Proof.
  intros Hsend. rewrite invokeRequestHandler_outcome, Hsend.
  destruct err; reflexivity.
Qed.

(** X6: an item of a batch result is the result of a single send whose
    transport delivers the same response: the i-th response of the batch is
    what [invokeHttpRequestHandlerForSendResponse] resolves with over any
    transport that answers with the i-th decoded part. *)
Theorem batch_item_is_single_send
    (requests : list SubRequest) (parts : list RequestResponse) (b : BatchResponse)
    (i : nat) (part : RequestResponse) (r : SendResponse)
    (send : HttpRequestConfig -> Promise RequestResponse)
    (host path : string) (requestData : JsValue) :
  batchClient_send requests = Resolved parts ->
  sendBatchRequest requests = Resolved b ->
  parts !! i = Some part ->
  responses b !! i = Some r ->
  send (legacy_request host path requestData) = Resolved part ->
  Messaging.invokeHttpRequestHandlerForSendResponse sdkVersion nodeVersion
    createFirebaseError send host path requestData = Resolved r.
Proof.
  intros Hsend Hb Hpart Hr Hone.
  destruct (sendBatchRequest_resolved _ _ _ _ _ _ _ _ Hb) as (parts' & Hsend' & Hmap & _).
  rewrite Hsend in Hsend'. injection Hsend' as <-.
  apply map__aligned in Hmap.
  assert (Hbuilt : buildSendResponse part = Return r).
  { clear Hsend Hb Hone. revert i Hpart Hr.
    induction Hmap as [|p r0 ps rs Hp _ IH]; intros [|i]; simpl;
      try discriminate.
    - intros [= <-] [= <-]. exact Hp.
    - apply IH. }
  rewrite (invokeHttp_outcome sdkVersion nodeVersion createFirebaseError send), Hone, Hbuilt.
  reflexivity.
Qed.

(** X3: a response with a status other than 200 gives the same failure
    [SendResponse] whether the transport resolves with it or throws it
    wrapped in a [RequestResponseError]. *)
Theorem failure_wrapped_or_resolved
    (send1 send2 : HttpRequestConfig -> Promise RequestResponse)
    (host path : string) (requestData : JsValue) (response : RequestResponse) :
  status response <> 200 ->
  send1 (legacy_request host path requestData) = Resolved response ->
  send2 (legacy_request host path requestData) =
    Rejected (ThrownRequestResponseError {| response := response |}) ->
  Messaging.invokeHttpRequestHandlerForSendResponse sdkVersion nodeVersion
    createFirebaseError send1 host path requestData =
  Messaging.invokeHttpRequestHandlerForSendResponse sdkVersion nodeVersion
    createFirebaseError send2 host path requestData.
Proof.
  intros Hs H1 H2.
  rewrite !(invokeHttp_outcome sdkVersion nodeVersion createFirebaseError), H1, H2.
  rewrite buildSendResponse_not_200 by exact Hs. reflexivity.
Qed.


End HandlerCoverage.

(** ** The theorems on the sample collaborators *)

Import Samples.

Local Abbreviation handler_sendBatchRequest batch :=
  (sendBatchRequest "12.0.0" "18.0.0" sample_createFirebaseError string offline batch).
Local Abbreviation handler_invokeHttp transport :=
  (invokeHttpRequestHandlerForSendResponse "12.0.0" "18.0.0" sample_createFirebaseError
     transport "fcm.googleapis.com" "/v1/projects/p/messages:send"
     (JObj [("token", JStr "token")])).

Lemma sendBatchRequest_counts_by_status_witness :
  exists b,
    handler_sendBatchRequest sample_BatchRequestClient_send ["a"; "stale"; "c"; "stale"]
      = Resolved b /\
    map success (responses b) = [true; false; true; false] /\
    successCount b = 2 /\ failureCount b = 2.
Proof.
  eexists. split; [reflexivity|].
  destruct (sendBatchRequest_counts_by_status "12.0.0" "18.0.0" sample_createFirebaseError
              string offline sample_BatchRequestClient_send
              ["a"; "stale"; "c"; "stale"]
              (map sample_reply ["a"; "stale"; "c"; "stale"]) _ eq_refl eq_refl)
    as (_ & _ & Hsucc & Hsc & Hfc).
  split; [exact Hsucc|]. split; [exact Hsc | exact Hfc].
Defined.

Lemma sendBatchRequest_rejects_iff_witness :
  handler_sendBatchRequest
    (fixed_BatchRequestClient_send [sent_response; null_body_response]) ["a"; "b"]
    = Rejected ThrownTypeError.
Proof.
  apply (sendBatchRequest_rejects_iff "12.0.0" "18.0.0" sample_createFirebaseError
           string offline
           (fixed_BatchRequestClient_send [sent_response; null_body_response])
           ["a"; "b"] [sent_response; null_body_response] ThrownTypeError eq_refl).
  split; [reflexivity|]. right. left. split; reflexivity.
Defined.

Lemma sendBatchRequest_all_failed_witness :
  handler_sendBatchRequest
    (fixed_BatchRequestClient_send [bad_token_response; unregistered_response])
    ["a"; "b"] =
  Resolved
    {| responses :=
         [ {| success := false; messageId := None;
              error := Some {| code := "messaging/invalid-argument";
                               message := "Invalid argument" |} |};
           {| success := false; messageId := None;
              error := Some {| code := "messaging/registration-token-not-registered";
                               message := "Requested entity was not found." |} |} ];
       successCount := 0;
       failureCount := 2 |}.
Proof.
  apply (sendBatchRequest_all_failed "12.0.0" "18.0.0" sample_createFirebaseError
           string offline
           (fixed_BatchRequestClient_send [bad_token_response; unregistered_response])
           ["a"; "b"] [bad_token_response; unregistered_response] eq_refl).
  repeat constructor; discriminate.
Defined.

Lemma invokeRequestHandler_transport_failure_witness :
  invokeRequestHandler "12.0.0" "18.0.0" sample_createFirebaseError sample_getErrorCode
    (constant_transport
       (Rejected (ThrownRequestResponseError {| response := bad_token_response |})))
    "fcm.googleapis.com" "/fcm/send" (JObj []) =
  Rejected (ThrownFirebaseError
              {| code := "messaging/invalid-argument"; message := "Invalid argument" |}).
Proof.
  apply (invokeRequestHandler_transport_failure "12.0.0" "18.0.0"
           sample_createFirebaseError sample_getErrorCode
           (constant_transport
              (Rejected (ThrownRequestResponseError {| response := bad_token_response |})))
           "fcm.googleapis.com" "/fcm/send" (JObj [])
           (ThrownRequestResponseError {| response := bad_token_response |}) eq_refl).
Defined.

Lemma batch_item_is_single_send_witness :
  handler_invokeHttp (constant_transport (Resolved (sample_reply "stale"))) =
  Resolved
    {| success := false; messageId := None;
       error := Some {| code := "messaging/registration-token-not-registered";
                        message := "Requested entity was not found." |} |}.
Proof.
  apply (batch_item_is_single_send "12.0.0" "18.0.0" sample_createFirebaseError string
           offline sample_BatchRequestClient_send ["a"; "stale"]
           (map sample_reply ["a"; "stale"]) _ 1%nat (sample_reply "stale") _
           (constant_transport (Resolved (sample_reply "stale")))
           "fcm.googleapis.com" "/v1/projects/p/messages:send"
           (JObj [("token", JStr "token")]) eq_refl eq_refl eq_refl eq_refl eq_refl).
Defined.

Lemma failure_wrapped_or_resolved_witness :
  handler_invokeHttp (constant_transport (Resolved unregistered_response)) =
  handler_invokeHttp
    (constant_transport
       (Rejected (ThrownRequestResponseError {| response := unregistered_response |}))).
Proof.
  apply (failure_wrapped_or_resolved "12.0.0" "18.0.0" sample_createFirebaseError
           (constant_transport (Resolved unregistered_response))
           (constant_transport
              (Rejected (ThrownRequestResponseError {| response := unregistered_response |})))
           "fcm.googleapis.com" "/v1/projects/p/messages:send"
           (JObj [("token", JStr "token")]) unregistered_response);
    [discriminate | reflexivity | reflexivity].
Defined.


End MessagingCoverage.

(** * Further properties of the tenant configuration object *)

Module AuthCoverage.
Import Auth AuthProofs.

Lemma bind_unit_Return {E B} (c : Completion E unit) (k : unit -> Completion E B) (b : B) :
  bind c k = Return b <-> c = Return tt /\ k tt = Return b.
Proof.
  destruct c as [[]|e]; simpl.
  - split; [auto | intros [_ ?]; assumption].
  - split; [discriminate | intros [? _]; discriminate].
Qed.

Lemma check_keys_Return (label : string) (keys : list string) :
  check_keys label keys = Return tt <-> forallb in_validKeys keys = true.
Proof.
  induction keys as [|key keys IH]; simpl; [tauto|].
  destruct (in_validKeys key); simpl; [exact IH|].
  split; discriminate.
Qed.

(** The first unsupported key stops the loop. *)
Lemma check_keys_first_unsupported (label : string) (good rest : list string) (key : string) :
  forallb in_validKeys good = true ->
  in_validKeys key = false ->
  check_keys label (good ++ key :: rest) =
    invalid_argument (quote +:+ key +:+ quote +:+ " is not a valid " +:+ label +:+ " parameter.").
Proof.
  intros Hgood Hkey. induction good as [|g good IH]; simpl in *.
  - rewrite Hkey. reflexivity.
  - apply andb_true_iff in Hgood as [-> Hgood]. simpl. apply IH, Hgood.
Qed.

Section RequestCoverage.

Variable EmailSignInConfig_buildServerRequest :
  JsValue -> Completion Thrown (gmap string JsValue).
Variable MultiFactorAuthConfig_buildServerRequest : JsValue -> Completion Thrown JsValue.
Variable validateTestPhoneNumbers : JsValue -> Completion Thrown unit.
Variable SmsRegionsAuthConfig_validate : JsValue -> Completion Thrown unit.
Variable RecaptchaAuthConfig_buildServerRequest : JsValue -> Completion Thrown JsValue.
Variable PasswordPolicyAuthConfig_buildServerRequest : JsValue -> Completion Thrown JsValue.
Variable EmailPrivacyAuthConfig_validate : JsValue -> Completion Thrown unit.

Local Abbreviation validate :=
  (Auth.validate EmailSignInConfig_buildServerRequest
     MultiFactorAuthConfig_buildServerRequest validateTestPhoneNumbers
     SmsRegionsAuthConfig_validate RecaptchaAuthConfig_buildServerRequest
     PasswordPolicyAuthConfig_buildServerRequest EmailPrivacyAuthConfig_validate).
Local Abbreviation buildServerRequest :=
  (Auth.buildServerRequest EmailSignInConfig_buildServerRequest
     MultiFactorAuthConfig_buildServerRequest validateTestPhoneNumbers
     SmsRegionsAuthConfig_validate RecaptchaAuthConfig_buildServerRequest
     PasswordPolicyAuthConfig_buildServerRequest EmailPrivacyAuthConfig_validate).
Local Abbreviation label createRequest :=
  (if createRequest : bool then "CreateTenantRequest" else "UpdateTenantRequest").

(** X10: a request that is not a non-null object ([null], [undefined], an
    array, a primitive) is refused by [buildServerRequest], for create and
    for update, with the [INVALID_ARGUMENT] error naming the request type;
    no other validator is consulted. *)
Theorem buildServerRequest_rejects_non_object (request : JsValue) (createRequest : bool) :
  isNonNullObject request = false ->
  buildServerRequest request createRequest =
    invalid_argument
      (quote +:+ label createRequest +:+ quote +:+ " must be a valid non-null object.").
Proof.
  intros Hobj. unfold Auth.buildServerRequest, Auth.validate. rewrite Hobj. simpl.
  destruct createRequest; reflexivity.
Qed.


(** X12: with supported keys only, a [displayName] that is given but is not
    a non-empty string is refused with the [INVALID_ARGUMENT] error on
    [displayName]. *)
Theorem validate_rejects_bad_displayName (request : JsValue) (createRequest : bool) :
  isNonNullObject request = true ->
  forallb in_validKeys (enumerable_keys request) = true ->
  is_defined (get request "displayName") = true ->
  isNonEmptyString (get request "displayName") = false ->
  buildServerRequest request createRequest =
    invalid_argument
      (quote +:+ label createRequest +:+ ".displayName" +:+ quote +:+
       " must be a valid non-empty string.").
Proof.
  intros Hobj Hkeys Hdef Hbad. unfold Auth.buildServerRequest, Auth.validate.
  rewrite Hobj. simpl.
  rewrite (proj2 (check_keys_Return _ _) Hkeys). simpl.
  rewrite Hdef, Hbad. simpl. destruct createRequest; reflexivity.
Qed.

(** When the request passes validation the rest of [buildServerRequest]
    returns. *)
Lemma buildServerRequest_returns (tenantOptions : JsValue) (createRequest : bool) :
  validate tenantOptions createRequest = Return tt ->
  exists request, buildServerRequest tenantOptions createRequest = Return request.
Proof.
  intros Hvalid.
  destruct (validate_passes _ _ _ _ _ _ _ _ _ Hvalid)
    as (Hemail & Hmfa & Hrecaptcha & Hpassword).
  unfold Auth.buildServerRequest. rewrite Hvalid. simpl.
  destruct (is_defined (get tenantOptions "emailSignInConfig"));
    [destruct Hemail as [r0 ->]; [reflexivity|]|]; simpl;
  (destruct (is_defined (get tenantOptions "multiFactorConfig"));
    [destruct Hmfa as [r1 ->]; [reflexivity|]|]); simpl;
  (destruct (is_defined (get tenantOptions "recaptchaConfig"));
    [destruct Hrecaptcha as [r2 ->]; [reflexivity|]|]); simpl;
  (destruct (is_defined (get tenantOptions "passwordPolicyConfig"));
    [destruct Hpassword as [r3 ->]; [reflexivity|]|]); simpl;
  eauto.
Qed.

(** X13: every error of [buildServerRequest] is an error of the validation:
    it throws exactly when [validate] throws, with the same error, and it
    returns a server request exactly when [validate] passes. *)
Theorem buildServerRequest_throws_iff_validate
    (tenantOptions : JsValue) (createRequest : bool) :
  (forall err,
     buildServerRequest tenantOptions createRequest = Throw err <->
     validate tenantOptions createRequest = Throw err) /\
  ((exists request, buildServerRequest tenantOptions createRequest = Return request) <->
   validate tenantOptions createRequest = Return tt).
Proof.
  destruct (validate tenantOptions createRequest) as [[]|e] eqn:Hvalid.
  - destruct (buildServerRequest_returns _ _ Hvalid) as [request Hreq]. split.
    + intros err. rewrite Hreq. split; discriminate.
    + split; [reflexivity | eauto].
  - assert (Hthrow : buildServerRequest tenantOptions createRequest = Throw e).
    { unfold Auth.buildServerRequest. rewrite Hvalid. reflexivity. }
    rewrite Hthrow. split.
    + intros err. split; intros [= ->]; reflexivity.
    + split; [intros [? ?]; discriminate | discriminate].
Qed.

(** What [validate] checks, apart from the label of its messages. *)
Lemma validate_Return_iff (request : JsValue) (createRequest : bool) :
  validate request createRequest = Return tt <->
  isNonNullObject request = true /\
  forallb in_validKeys (enumerable_keys request) = true /\
  is_defined (get request "displayName") &&
    negb (isNonEmptyString (get request "displayName")) = false /\
  when_defined (get request "emailSignInConfig") EmailSignInConfig_buildServerRequest
    = Return tt /\
  (if is_defined (get request "testPhoneNumbers") &&
      negb (match get request "testPhoneNumbers" with JNull => true | _ => false end)
   then validateTestPhoneNumbers (get request "testPhoneNumbers") = Return tt
   else (match get request "testPhoneNumbers" with JNull => true | _ => false end)
        && createRequest = false) /\
  when_defined (get request "multiFactorConfig") MultiFactorAuthConfig_buildServerRequest
    = Return tt /\
  when_defined (get request "smsRegionConfig") SmsRegionsAuthConfig_validate = Return tt /\
  when_defined (get request "recaptchaConfig") RecaptchaAuthConfig_buildServerRequest
    = Return tt /\
  when_defined (get request "passwordPolicyConfig")
    PasswordPolicyAuthConfig_buildServerRequest = Return tt /\
  when_defined (get request "emailPrivacyConfig") EmailPrivacyAuthConfig_validate
    = Return tt.
Proof.
  unfold Auth.validate.
  destruct (isNonNullObject request); simpl;
    [|split; [discriminate | intros [? _]; discriminate]].
  rewrite !bind_unit_Return, check_keys_Return.
  destruct (is_defined (get request "displayName") &&
            negb (isNonEmptyString (get request "displayName"))); simpl.
  { split; [intros (_ & ? & _); discriminate | intros (_ & _ & ? & _); discriminate]. }
  destruct (is_defined (get request "testPhoneNumbers") &&
            negb (match get request "testPhoneNumbers" with JNull => true | _ => false end)).
  - destruct (validateTestPhoneNumbers _) as [[]|]; tauto.
  - destruct ((match get request "testPhoneNumbers" with JNull => true | _ => false end)
              && createRequest); simpl.
    + split; [intros (_ & _ & _ & ? & _); discriminate
             | intros (_ & _ & _ & _ & ? & _); discriminate].
    + tauto.
Qed.

(** X14: create and update requests are validated alike, but for [null] test
    phone numbers: when [testPhoneNumbers] is not [null], a request passes
    the validation of a create exactly when it passes that of an update, and
    the two calls of [buildServerRequest] then return the same server
    request. *)
Theorem create_and_update_agree (tenantOptions : JsValue) :
  get tenantOptions "testPhoneNumbers" <> JNull ->
  (validate tenantOptions true = Return tt <-> validate tenantOptions false = Return tt) /\
  (validate tenantOptions true = Return tt ->
   buildServerRequest tenantOptions true = buildServerRequest tenantOptions false).
Proof.
  intros Hnull.
  assert (Hiff : validate tenantOptions true = Return tt <->
                 validate tenantOptions false = Return tt).
  { rewrite !validate_Return_iff.
    destruct (get tenantOptions "testPhoneNumbers"); try contradiction; simpl; tauto. }
  split; [exact Hiff|]. intros Hcreate.
  pose proof (proj1 Hiff Hcreate) as Hupdate.
  unfold Auth.buildServerRequest. rewrite Hcreate, Hupdate. reflexivity.
Qed.

(** One assignment of [buildServerRequest]:
    [if (typeof option !== 'undefined') { request.key = value; }]. *)
Local Abbreviation assigned key option value request :=
  (if is_defined option then <[key := value]> request else request).

Lemma assigned_lookup_ne (key key' : string) (option value : JsValue)
    (request : gmap string JsValue) :
  key <> key' -> assigned key option value request !! key' = request !! key'.
Proof. intros Hne. destruct (is_defined option); [apply lookup_insert_ne, Hne | reflexivity]. Qed.

Lemma assigned_lookup_eq (key : string) (option value : JsValue)
    (request : gmap string JsValue) :
  is_defined option = true -> assigned key option value request !! key = Some value.
Proof. intros ->. apply lookup_insert_eq. Qed.

Lemma assigned_lookup_undefined (key key' : string) (option value : JsValue)
    (request : gmap string JsValue) :
  is_defined option = false -> assigned key option value request !! key' = request !! key'.
Proof. intros ->. reflexivity. Qed.

(** An assignment of a value that a builder returns. *)
Lemma built_assignment (key : string) (option : JsValue)
    (build : JsValue -> Completion Thrown JsValue) (request request' : gmap string JsValue) :
  (if is_defined option then
     let* value := build option in Return (<[key := value]> request)
   else Return request) = Return request' ->
  exists value,
    (is_defined option = true -> build option = Return value) /\
    request' = assigned key option value request.
Proof.
  destruct (is_defined option).
  - intros H. apply bind_Return_inv in H as (value & Hb & [= <-]). eauto.
  - intros [= <-]. exists JUndefined. split; [discriminate | reflexivity].
Qed.

(** The server request that [buildServerRequest] returns, as the chain of
    its assignments over the request of the email sign-in configuration. *)
Lemma buildServerRequest_assignments
    (tenantOptions : JsValue) (createRequest : bool) (request : gmap string JsValue) :
  buildServerRequest tenantOptions createRequest = Return request ->
  exists (base : gmap string JsValue) (mfaConfig recaptchaConfig passwordPolicyConfig : JsValue),
    (if is_defined (get tenantOptions "emailSignInConfig")
     then EmailSignInConfig_buildServerRequest (get tenantOptions "emailSignInConfig")
          = Return base
     else base = ∅) /\
    (is_defined (get tenantOptions "multiFactorConfig") = true ->
     MultiFactorAuthConfig_buildServerRequest (get tenantOptions "multiFactorConfig")
     = Return mfaConfig) /\
    (is_defined (get tenantOptions "recaptchaConfig") = true ->
     RecaptchaAuthConfig_buildServerRequest (get tenantOptions "recaptchaConfig")
     = Return recaptchaConfig) /\
    (is_defined (get tenantOptions "passwordPolicyConfig") = true ->
     PasswordPolicyAuthConfig_buildServerRequest (get tenantOptions "passwordPolicyConfig")
     = Return passwordPolicyConfig) /\
    request =
      assigned "emailPrivacyConfig" (get tenantOptions "emailPrivacyConfig")
        (get tenantOptions "emailPrivacyConfig")
      (assigned "passwordPolicyConfig" (get tenantOptions "passwordPolicyConfig")
        passwordPolicyConfig
      (assigned "recaptchaConfig" (get tenantOptions "recaptchaConfig") recaptchaConfig
      (assigned "smsRegionConfig" (get tenantOptions "smsRegionConfig")
        (get tenantOptions "smsRegionConfig")
      (assigned "testPhoneNumbers" (get tenantOptions "testPhoneNumbers")
        (nullish_coalesce (get tenantOptions "testPhoneNumbers") (JObj []))
      (assigned "mfaConfig" (get tenantOptions "multiFactorConfig") mfaConfig
      (assigned "enableAnonymousUser" (get tenantOptions "anonymousSignInEnabled")
        (get tenantOptions "anonymousSignInEnabled")
      (assigned "displayName" (get tenantOptions "displayName")
        (get tenantOptions "displayName") base))))))).
Proof.
  unfold Auth.buildServerRequest. intros H.
  apply bind_Return_inv in H as (_ & _ & H).
  apply bind_Return_inv in H as (base & Hbase & H).
  apply bind_Return_inv in H as (request1 & H1 & H).
  apply bind_Return_inv in H as (request2 & H2 & H).
  apply bind_Return_inv in H as (request3 & H3 & H).
  injection H as <-.
  apply built_assignment in H1 as (mfaConfig & Hmfa & ->).
  apply built_assignment in H2 as (recaptchaConfig & Hrecaptcha & ->).
  apply built_assignment in H3 as (passwordPolicyConfig & Hpassword & ->).
  exists base, mfaConfig, recaptchaConfig, passwordPolicyConfig.
  split; [|auto].
  destruct (is_defined (get tenantOptions "emailSignInConfig"));
    [exact Hbase | injection Hbase as <-; reflexivity].
Qed.

(** X15: the options reach the server request under the names of the server:
    [displayName], [smsRegionConfig] and [emailPrivacyConfig] as they are,
    [anonymousSignInEnabled] as [enableAnonymousUser], test phone numbers
    that are not [null] as they are, and [multiFactorConfig],
    [recaptchaConfig] and [passwordPolicyConfig] as what their builders
    return, under [mfaConfig], [recaptchaConfig] and [passwordPolicyConfig]. *)
Theorem buildServerRequest_given_options
    (tenantOptions : JsValue) (createRequest : bool) (request : gmap string JsValue) :
  buildServerRequest tenantOptions createRequest = Return request ->
  (is_defined (get tenantOptions "displayName") = true ->
   request !! "displayName" = Some (get tenantOptions "displayName")) /\
  (is_defined (get tenantOptions "anonymousSignInEnabled") = true ->
   request !! "enableAnonymousUser" = Some (get tenantOptions "anonymousSignInEnabled")) /\
  (is_defined (get tenantOptions "multiFactorConfig") = true ->
   exists mfaConfig,
     MultiFactorAuthConfig_buildServerRequest (get tenantOptions "multiFactorConfig")
     = Return mfaConfig /\
     request !! "mfaConfig" = Some mfaConfig) /\
  (is_nullish (get tenantOptions "testPhoneNumbers") = false ->
   request !! "testPhoneNumbers" = Some (get tenantOptions "testPhoneNumbers")) /\
  (is_defined (get tenantOptions "smsRegionConfig") = true ->
   request !! "smsRegionConfig" = Some (get tenantOptions "smsRegionConfig")) /\
  (is_defined (get tenantOptions "recaptchaConfig") = true ->
   exists recaptchaConfig,
     RecaptchaAuthConfig_buildServerRequest (get tenantOptions "recaptchaConfig")
     = Return recaptchaConfig /\
     request !! "recaptchaConfig" = Some recaptchaConfig) /\
  (is_defined (get tenantOptions "passwordPolicyConfig") = true ->
   exists passwordPolicyConfig,
     PasswordPolicyAuthConfig_buildServerRequest (get tenantOptions "passwordPolicyConfig")
     = Return passwordPolicyConfig /\
     request !! "passwordPolicyConfig" = Some passwordPolicyConfig) /\
  (is_defined (get tenantOptions "emailPrivacyConfig") = true ->
   request !! "emailPrivacyConfig" = Some (get tenantOptions "emailPrivacyConfig")).
Proof.
  intros H.
  apply buildServerRequest_assignments in H
    as (base & mfaConfig & recaptchaConfig & passwordPolicyConfig
        & _ & Hmfa & Hrecaptcha & Hpassword & ->).
  repeat split.
  - intros Hd. rewrite !assigned_lookup_ne by done. apply assigned_lookup_eq, Hd.
  - intros Hd. rewrite !assigned_lookup_ne by done. apply assigned_lookup_eq, Hd.
  - intros Hd. exists mfaConfig. split; [auto|].
    rewrite !assigned_lookup_ne by done. apply assigned_lookup_eq, Hd.
  - intros Hd. rewrite !assigned_lookup_ne by done.
    rewrite assigned_lookup_eq by (destruct (get tenantOptions "testPhoneNumbers");
                                   (discriminate || reflexivity)).
    unfold nullish_coalesce. rewrite Hd. reflexivity.
  - intros Hd. rewrite !assigned_lookup_ne by done. apply assigned_lookup_eq, Hd.
  - intros Hd. exists recaptchaConfig. split; [auto|].
    rewrite !assigned_lookup_ne by done. apply assigned_lookup_eq, Hd.
  - intros Hd. exists passwordPolicyConfig. split; [auto|].
    rewrite !assigned_lookup_ne by done. apply assigned_lookup_eq, Hd.
  - intros Hd. apply assigned_lookup_eq, Hd.
Qed.

(** X16: nothing else is written: a key that is not one of the eight server
    keys, or whose option is not given, reads in the server request as it
    reads in the request of the email sign-in configuration, which is the
    empty request when [emailSignInConfig] is not given; so without
    [emailSignInConfig] a server key is absent when its option is. *)
Theorem buildServerRequest_other_keys
    (tenantOptions : JsValue) (createRequest : bool) (request : gmap string JsValue) :
  buildServerRequest tenantOptions createRequest = Return request ->
  exists base : gmap string JsValue,
    (if is_defined (get tenantOptions "emailSignInConfig")
     then EmailSignInConfig_buildServerRequest (get tenantOptions "emailSignInConfig")
          = Return base
     else base = ∅) /\
    forall key,
      (In key server_keys ->
       is_defined (get tenantOptions (option_of_server_key key)) = false) ->
      request !! key = base !! key.
Proof.
  intros H.
  apply buildServerRequest_assignments in H
    as (base & mfaConfig & recaptchaConfig & passwordPolicyConfig & Hbase & _ & _ & _ & ->).
  exists base. split; [exact Hbase|]. intros key Hkey.
  assert (Hstep : forall (k : string) (option value : JsValue) (m : gmap string JsValue),
             (k = key -> is_defined option = false) ->
             assigned k option value m !! key = m !! key).
  { intros k option value m Hk. destruct (decide (k = key)) as [Heq|Hne].
    - apply assigned_lookup_undefined, Hk, Heq.
    - apply assigned_lookup_ne, Hne. }
  rewrite !Hstep; [reflexivity|..]; intros <-; apply Hkey; simpl; tauto.
Qed.

End RequestCoverage.

(** ** Resource names *)

Lemma match_here_not_slash (c : ascii) (s : string) :
  Ascii.eqb c "/"%char = false -> match_here (String c s) = None.
Proof.
  intros Hc. unfold match_here. cbn [strip_literal].
  rewrite Ascii.eqb_sym, Hc. reflexivity.
Qed.

(** A text without slash before the match is skipped. *)
Lemma regexp_match_skip (pre s : string) :
  slash_free pre = true -> regexp_match (pre +:+ s) = regexp_match s.
Proof.
  induction pre as [|c pre IH]; [reflexivity|].
  intros H. simpl in H. apply andb_true_iff in H as [Hc Hpre]. apply negb_true_iff in Hc.
  change (String c pre +:+ s) with (String c (pre +:+ s)).
  rewrite (regexp_match_unfold (String c (pre +:+ s))), (match_here_not_slash _ _ Hc).
  apply IH, Hpre.
Qed.

Lemma slash_free_prefix_unique (a b x y : string) :
  a +:+ String "/" x = b +:+ String "/" y ->
  slash_free a = true -> slash_free b = true -> a = b.
Proof.
  revert b. induction a as [|c a IH]; intros [|d b]; simpl; intros H Ha Hb.
  - reflexivity.
  - injection H as <- _. discriminate Hb.
  - injection H as -> _. discriminate Ha.
  - injection H as -> H.
    apply andb_true_iff in Ha as [_ Ha]. apply andb_true_iff in Hb as [_ Hb].
    f_equal. apply (IH b H Ha Hb).
Qed.

(** X17: the round trip of a resource name: for a project id without slash,
    other than [tenants], and a tenant id without line terminator, the
    tenant id is read back from [projects/<project>/tenants/<tenant>]. *)
Theorem getTenantIdFromResourceName_of_resource_name (project tenant : string) :
  slash_free project = true ->
  project <> "tenants" ->
  line_terminator_free tenant = true ->
  getTenantIdFromResourceName ("projects/" +:+ project +:+ "/tenants/" +:+ tenant)
  = Some tenant.
Proof.
  intros Hslash Hproject Hfree. unfold getTenantIdFromResourceName.
  change ("projects/" +:+ project +:+ "/tenants/" +:+ tenant)
    with ("projects" +:+ String "/" (project +:+ "/tenants/" +:+ tenant)).
  rewrite regexp_match_skip by reflexivity.
  rewrite regexp_match_unfold.
  destruct (match_here (String "/" (project +:+ "/tenants/" +:+ tenant))) as [g|] eqn:Hm.
  - apply match_here_spec in Hm as [Hs _]. exfalso. apply Hproject.
    injection Hs as Hs.
    apply (slash_free_prefix_unique project "tenants" ("tenants/" +:+ tenant) g); auto.
  - rewrite regexp_match_skip by exact Hslash.
    rewrite regexp_match_unfold.
    rewrite (proj2 (match_here_spec ("/tenants/" +:+ tenant) tenant)) by auto.
    reflexivity.
Qed.

(** X18: the project id [tenants] is the exception: the first [/tenants/] of
    the resource name is then the one that follows [projects], and what is
    read back is [tenants/<tenant>]. *)
Theorem getTenantIdFromResourceName_project_named_tenants (tenant : string) :
  line_terminator_free tenant = true ->
  getTenantIdFromResourceName ("projects/" +:+ "tenants" +:+ "/tenants/" +:+ tenant)
  = Some ("tenants/" +:+ tenant).
Proof.
  intros Hfree. unfold getTenantIdFromResourceName.
  change ("projects/" +:+ "tenants" +:+ "/tenants/" +:+ tenant)
    with ("projects" +:+ ("/tenants/" +:+ ("tenants/" +:+ tenant))).
  rewrite regexp_match_skip by reflexivity.
  rewrite regexp_match_unfold.
  rewrite (proj2 (match_here_spec _ ("tenants/" +:+ tenant))); [reflexivity|].
  split; [reflexivity | exact Hfree].
Qed.

(** ** The constructor and [toJSON] *)

Section TenantCoverage.

Variables (EmailSignInConfig MultiFactorAuthConfig RecaptchaAuthConfig
           PasswordPolicyAuthConfig : Type).
Variable EmailSignInConfig_new : JsValue -> Completion Thrown EmailSignInConfig.
Variable MultiFactorAuthConfig_new : JsValue -> Completion Thrown MultiFactorAuthConfig.
Variable RecaptchaAuthConfig_new : JsValue -> Completion Thrown RecaptchaAuthConfig.
Variable PasswordPolicyAuthConfig_new : JsValue -> Completion Thrown PasswordPolicyAuthConfig.
Variable deepCopy : JsValue -> JsValue.
Variable EmailSignInConfig_toJSON : EmailSignInConfig -> JsValue.
Variable MultiFactorAuthConfig_toJSON : MultiFactorAuthConfig -> JsValue.
Variable RecaptchaAuthConfig_value : RecaptchaAuthConfig -> JsValue.
Variable PasswordPolicyAuthConfig_value : PasswordPolicyAuthConfig -> JsValue.

Local Abbreviation Tenant :=
  (Auth.Tenant EmailSignInConfig MultiFactorAuthConfig RecaptchaAuthConfig
     PasswordPolicyAuthConfig).
Local Abbreviation Tenant_init :=
  (Auth.Tenant_init EmailSignInConfig MultiFactorAuthConfig RecaptchaAuthConfig
     PasswordPolicyAuthConfig EmailSignInConfig_new MultiFactorAuthConfig_new
     RecaptchaAuthConfig_new PasswordPolicyAuthConfig_new deepCopy).
Local Abbreviation Tenant_new :=
  (Auth.Tenant_new EmailSignInConfig MultiFactorAuthConfig RecaptchaAuthConfig
     PasswordPolicyAuthConfig EmailSignInConfig_new MultiFactorAuthConfig_new
     RecaptchaAuthConfig_new PasswordPolicyAuthConfig_new deepCopy).
Local Abbreviation toJSON :=
  (Auth.toJSON EmailSignInConfig MultiFactorAuthConfig RecaptchaAuthConfig
     PasswordPolicyAuthConfig deepCopy EmailSignInConfig_toJSON
     MultiFactorAuthConfig_toJSON RecaptchaAuthConfig_value PasswordPolicyAuthConfig_value).

(** The default of the email sign-in configuration. *)
Local Abbreviation disabled_sign_in := (JObj [("allowPasswordSignup", JBool false)]).

Lemma optional_field_Return {A} (value : JsValue) (make : JsValue -> Completion Thrown A)
    (field : option A) :
  optional_field value make = Return field <->
  if is_defined value then exists a, make value = Return a /\ field = Some a
  else field = None.
Proof.
  unfold optional_field. destruct (is_defined value).
  - destruct (make value) as [a|e]; simpl.
    + split; [intros [= <-]; eauto | intros (a' & [= <-] & ->); reflexivity].
    + split; [discriminate | intros (a' & ? & _); discriminate].
  - split; [intros [= <-]; reflexivity | intros ->; reflexivity].
Qed.

Lemma optional_field_total {A} (value : JsValue) (make : JsValue -> Completion Thrown A) :
  (is_defined value = true -> exists a, make value = Return a) ->
  exists field, optional_field value make = Return field.
Proof.
  intros H. unfold optional_field. destruct (is_defined value); [|eauto].
  destruct H as [a ->]; [reflexivity | simpl; eauto].
Qed.

(** The tenant that the constructor returns, field by field. *)
Lemma Tenant_init_Return (tid : string) (response : JsValue) (tenant : Tenant) :
  Tenant_init tid response = Return tenant <->
  exists email mfa recaptcha password,
    match EmailSignInConfig_new response with
    | Return c => c = email
    | Throw _ => EmailSignInConfig_new disabled_sign_in = Return email
    end /\
    optional_field (get response "mfaConfig") MultiFactorAuthConfig_new = Return mfa /\
    optional_field (get response "recaptchaConfig") RecaptchaAuthConfig_new
      = Return recaptcha /\
    optional_field (get response "passwordPolicyConfig") PasswordPolicyAuthConfig_new
      = Return password /\
    tenant =
      {| tenantId := tid;
         displayName := get response "displayName";
         anonymousSignInEnabled := truthy (get response "enableAnonymousUser");
         testPhoneNumbers :=
           if is_defined (get response "testPhoneNumbers") then
             Some (deepCopy (logical_or (get response "testPhoneNumbers") (JObj [])))
           else None;
         emailSignInConfig_ := email;
         multiFactorConfig_ := mfa;
         recaptchaConfig_ := recaptcha;
         smsRegionConfig :=
           if is_defined (get response "smsRegionConfig") then
             Some (deepCopy (get response "smsRegionConfig"))
           else None;
         passwordPolicyConfig := password;
         emailPrivacyConfig :=
           if is_defined (get response "emailPrivacyConfig") then
             Some (deepCopy (get response "emailPrivacyConfig"))
           else None |}.
Proof.
  unfold Auth.Tenant_init. split.
  - intros H.
    apply bind_Return_inv in H as (email & Hemail & H).
    apply bind_Return_inv in H as (mfa & Hmfa & H).
    apply bind_Return_inv in H as (recaptcha & Hrecaptcha & H).
    apply bind_Return_inv in H as (password & Hpassword & H).
    injection H as <-. exists email, mfa, recaptcha, password.
    repeat split; auto.
    destruct (EmailSignInConfig_new response); [injection Hemail as ->; reflexivity | exact Hemail].
  - intros (email & mfa & recaptcha & password & Hemail & -> & -> & -> & ->).
    destruct (EmailSignInConfig_new response) as [c|e]; [subst c | rewrite Hemail];
      reflexivity.
Qed.

Local Abbreviation tenantId :=
  (Auth.tenantId EmailSignInConfig MultiFactorAuthConfig RecaptchaAuthConfig
     PasswordPolicyAuthConfig).
Local Abbreviation displayName :=
  (Auth.displayName EmailSignInConfig MultiFactorAuthConfig RecaptchaAuthConfig
     PasswordPolicyAuthConfig).
Local Abbreviation anonymousSignInEnabled :=
  (Auth.anonymousSignInEnabled EmailSignInConfig MultiFactorAuthConfig RecaptchaAuthConfig
     PasswordPolicyAuthConfig).
Local Abbreviation testPhoneNumbers :=
  (Auth.testPhoneNumbers EmailSignInConfig MultiFactorAuthConfig RecaptchaAuthConfig
     PasswordPolicyAuthConfig).
Local Abbreviation smsRegionConfig :=
  (Auth.smsRegionConfig EmailSignInConfig MultiFactorAuthConfig RecaptchaAuthConfig
     PasswordPolicyAuthConfig).
Local Abbreviation passwordPolicyConfig :=
  (Auth.passwordPolicyConfig EmailSignInConfig MultiFactorAuthConfig RecaptchaAuthConfig
     PasswordPolicyAuthConfig).
Local Abbreviation emailPrivacyConfig :=
  (Auth.emailPrivacyConfig EmailSignInConfig MultiFactorAuthConfig RecaptchaAuthConfig
     PasswordPolicyAuthConfig).
Local Abbreviation emailSignInConfig :=
  (Auth.emailSignInConfig EmailSignInConfig MultiFactorAuthConfig RecaptchaAuthConfig
     PasswordPolicyAuthConfig).
Local Abbreviation multiFactorConfig :=
  (Auth.multiFactorConfig EmailSignInConfig MultiFactorAuthConfig RecaptchaAuthConfig
     PasswordPolicyAuthConfig).
Local Abbreviation recaptchaConfig :=
  (Auth.recaptchaConfig EmailSignInConfig MultiFactorAuthConfig RecaptchaAuthConfig
     PasswordPolicyAuthConfig).

(** X19: the constructor goes through exactly when the nested configuration
    objects can be built: the email sign-in configuration from the response
    or, when that throws, from its default, and the multi-factor, reCAPTCHA
    and password policy configurations when the response has them. *)
Theorem Tenant_init_returns_iff (tid : string) (response : JsValue) :
  (exists tenant, Tenant_init tid response = Return tenant) <->
  ((exists c, EmailSignInConfig_new response = Return c) \/
   (exists c, EmailSignInConfig_new disabled_sign_in = Return c)) /\
  (is_defined (get response "mfaConfig") = true ->
   exists c, MultiFactorAuthConfig_new (get response "mfaConfig") = Return c) /\
  (is_defined (get response "recaptchaConfig") = true ->
   exists c, RecaptchaAuthConfig_new (get response "recaptchaConfig") = Return c) /\
  (is_defined (get response "passwordPolicyConfig") = true ->
   exists c,
     PasswordPolicyAuthConfig_new (get response "passwordPolicyConfig") = Return c).
Proof.
  split.
  - intros [tenant H].
    apply Tenant_init_Return in H
      as (email & mfa & recaptcha & password & Hemail & Hmfa & Hrecaptcha & Hpassword & _).
    apply optional_field_Return in Hmfa, Hrecaptcha, Hpassword.
    repeat split.
    + destruct (EmailSignInConfig_new response) as [c|e]; eauto.
    + intros Hd. rewrite Hd in Hmfa. destruct Hmfa as (c & ? & _). eauto.
    + intros Hd. rewrite Hd in Hrecaptcha. destruct Hrecaptcha as (c & ? & _). eauto.
    + intros Hd. rewrite Hd in Hpassword. destruct Hpassword as (c & ? & _). eauto.
  - intros (Hemail & Hmfa & Hrecaptcha & Hpassword).
    assert (exists email,
               match EmailSignInConfig_new response with
               | Return c => c = email
               | Throw _ => EmailSignInConfig_new disabled_sign_in = Return email
               end) as [email Hemail'].
    { destruct (EmailSignInConfig_new response) as [c|e]; [eauto|].
      destruct Hemail as [[c ?]|[c ?]]; [discriminate | eauto]. }
    destruct (optional_field_total _ _ Hmfa) as [mfa Hmfa'].
    destruct (optional_field_total _ _ Hrecaptcha) as [rc Hrc'].
    destruct (optional_field_total _ _ Hpassword) as [pp Hpp'].
    eexists. apply Tenant_init_Return. exists email, mfa, rc, pp. repeat split; eauto.
Qed.

(** X20: an email sign-in part of the response that cannot be read never
    fails the constructor by itself: the tenant carries the configuration
    built from the response when that can be built, and otherwise the one
    built from the default, with password sign-up disabled. *)
Theorem Tenant_email_sign_in_fallback (tid : string) (response : JsValue) (tenant : Tenant) :
  Tenant_init tid response = Return tenant ->
  match EmailSignInConfig_new response with
  | Return c => emailSignInConfig tenant = c
  | Throw _ => EmailSignInConfig_new disabled_sign_in = Return (emailSignInConfig tenant)
  end.
Proof.
  intros H. apply Tenant_init_Return in H as (email & ? & ? & ? & Hemail & _ & _ & _ & ->).
  destruct (EmailSignInConfig_new response); simpl; auto.
Qed.

(** X21: the fields the constructor copies: [displayName] as in the
    response, [anonymousSignInEnabled] the truth value of
    [enableAnonymousUser] (false when it is missing), and the optional
    fields assigned exactly when the response has them; test phone numbers
    in particular are the copy of the empty object when the response has
    [null] (or another falsy value) there, never [null] themselves. *)
Theorem Tenant_fields_of_response (tid : string) (response : JsValue) (tenant : Tenant) :
  Tenant_init tid response = Return tenant ->
  tenantId tenant = tid /\
  displayName tenant = get response "displayName" /\
  anonymousSignInEnabled tenant = truthy (get response "enableAnonymousUser") /\
  (is_defined (get response "enableAnonymousUser") = false ->
   anonymousSignInEnabled tenant = false) /\
  (testPhoneNumbers tenant = None <-> is_defined (get response "testPhoneNumbers") = false) /\
  (is_defined (get response "testPhoneNumbers") = true ->
   truthy (get response "testPhoneNumbers") = false ->
   testPhoneNumbers tenant = Some (deepCopy (JObj []))) /\
  (truthy (get response "testPhoneNumbers") = true ->
   testPhoneNumbers tenant = Some (deepCopy (get response "testPhoneNumbers"))) /\
  (multiFactorConfig tenant = None <-> is_defined (get response "mfaConfig") = false) /\
  (recaptchaConfig tenant = None <-> is_defined (get response "recaptchaConfig") = false) /\
  (passwordPolicyConfig tenant = None <->
   is_defined (get response "passwordPolicyConfig") = false) /\
  (smsRegionConfig tenant = None <-> is_defined (get response "smsRegionConfig") = false) /\
  (emailPrivacyConfig tenant = None <->
   is_defined (get response "emailPrivacyConfig") = false).
Proof.
  intros H.
  apply Tenant_init_Return in H
    as (email & mfa & recaptcha & password & _ & Hmfa & Hrecaptcha & Hpassword & ->).
  apply optional_field_Return in Hmfa, Hrecaptcha, Hpassword.
  unfold multiFactorConfig, recaptchaConfig, logical_or. simpl.
  split; [reflexivity|]. split; [reflexivity|]. split; [reflexivity|].
  split. { destruct (get response "enableAnonymousUser"); simpl; congruence. }
  split. { destruct (is_defined (get response "testPhoneNumbers")); split; congruence. }
  split. { intros -> ->. reflexivity. }
  split. { intros Ht. rewrite Ht.
           destruct (get response "testPhoneNumbers"); simpl in *; congruence. }
  split. { destruct (is_defined (get response "mfaConfig"));
             [destruct Hmfa as (c & _ & ->) | subst mfa]; split; congruence. }
  split. { destruct (is_defined (get response "recaptchaConfig"));
             [destruct Hrecaptcha as (c & _ & ->) | subst recaptcha]; split; congruence. }
  split. { destruct (is_defined (get response "passwordPolicyConfig"));
             [destruct Hpassword as (c & _ & ->) | subst password]; split; congruence. }
  split. { destruct (is_defined (get response "smsRegionConfig")); split; congruence. }
  destruct (is_defined (get response "emailPrivacyConfig")); split; congruence.
Qed.

(** A property of the JSON object that stays only when it is defined. *)
Local Abbreviation kept key value :=
  (if is_defined value then [(key, value)] else []).

(** The six conditional deletions of [toJSON] on the object literal. *)
Lemma delete_undefined_properties (tid name email anonymous v1 v2 v3 v4 v5 v6 : JsValue) :
  delete_if_undefined "emailPrivacyConfig"
    (delete_if_undefined "passwordPolicyConfig"
      (delete_if_undefined "recaptchaConfig"
        (delete_if_undefined "smsRegionConfig"
          (delete_if_undefined "testPhoneNumbers"
            (delete_if_undefined "multiFactorConfig"
               [ ("tenantId", tid); ("displayName", name); ("emailSignInConfig", email);
                 ("multiFactorConfig", v1); ("anonymousSignInEnabled", anonymous);
                 ("testPhoneNumbers", v2); ("smsRegionConfig", v3);
                 ("recaptchaConfig", v4); ("passwordPolicyConfig", v5);
                 ("emailPrivacyConfig", v6) ])))))
  = ([ ("tenantId", tid); ("displayName", name); ("emailSignInConfig", email) ]
     ++ kept "multiFactorConfig" v1
     ++ [ ("anonymousSignInEnabled", anonymous) ]
     ++ kept "testPhoneNumbers" v2
     ++ kept "smsRegionConfig" v3
     ++ kept "recaptchaConfig" v4
     ++ kept "passwordPolicyConfig" v5
     ++ kept "emailPrivacyConfig" v6)%list.
Proof.
  unfold delete_if_undefined.
  cbn.
  destruct (is_defined v1) eqn:H1;
    cbn;
  (destruct (is_defined v2) eqn:H2;
    cbn);
  (destruct (is_defined v3) eqn:H3;
    cbn);
  (destruct (is_defined v4) eqn:H4;
    cbn);
  (destruct (is_defined v5) eqn:H5;
    cbn);
  (destruct (is_defined v6) eqn:H6;
    cbn);
  reflexivity.
Qed.

(** The JSON object of a tenant, with the removed properties left out. *)
Lemma toJSON_properties (tenant : Tenant) :
  toJSON tenant =
    JObj
      ([ ("tenantId", JStr (tenantId tenant));
         ("displayName", displayName tenant);
         ("emailSignInConfig", EmailSignInConfig_toJSON (emailSignInConfig tenant)) ]
       ++ kept "multiFactorConfig"
            (read_field MultiFactorAuthConfig_toJSON (multiFactorConfig tenant))
       ++ [ ("anonymousSignInEnabled", JBool (anonymousSignInEnabled tenant)) ]
       ++ kept "testPhoneNumbers" (read_field (fun v => v) (testPhoneNumbers tenant))
       ++ kept "smsRegionConfig"
            (deepCopy (read_field (fun v => v) (smsRegionConfig tenant)))
       ++ kept "recaptchaConfig"
            (deepCopy (read_field RecaptchaAuthConfig_value (recaptchaConfig tenant)))
       ++ kept "passwordPolicyConfig"
            (deepCopy (read_field PasswordPolicyAuthConfig_value
                         (passwordPolicyConfig tenant)))
       ++ kept "emailPrivacyConfig"
            (deepCopy (read_field (fun v => v) (emailPrivacyConfig tenant))))%list.
Proof. unfold Auth.toJSON. f_equal. apply delete_undefined_properties. Qed.

Lemma own_property_app (a b : list (string * JsValue)) (key : string) :
  own_property (a ++ b) key =
    match own_property a key with Some v => Some v | None => own_property b key end.
Proof.
  induction a as [|[k v] a IH]; simpl; [reflexivity|].
  destruct (String.eqb k key); [reflexivity | exact IH].
Qed.

Lemma own_property_kept (key' key : string) (value v : JsValue) :
  own_property (kept key' value) key = Some v ->
  key = key' /\ v = value /\ is_defined value = true.
Proof.
  destruct (is_defined value); simpl; [|discriminate].
  destruct (String.eqb_spec key' key); [|discriminate].
  intros [= <-]. auto.
Qed.

Lemma own_property_kept_ne (key' key : string) (value : JsValue) :
  key' <> key -> own_property (kept key' value) key = None.
Proof.
  intros Hne. destruct (is_defined value); simpl; [|reflexivity].
  destruct (String.eqb_spec key' key); [contradiction | reflexivity].
Qed.

(** X22: the JSON of a tenant always has the own properties [tenantId],
    [displayName], [emailSignInConfig] and [anonymousSignInEnabled], with
    the values of the tenant: they are never removed, [displayName] not even
    when it is [undefined]. *)
Theorem toJSON_fixed_properties (tenant : Tenant) (fields : list (string * JsValue)) :
  toJSON tenant = JObj fields ->
  own_property fields "tenantId" = Some (JStr (tenantId tenant)) /\
  own_property fields "displayName" = Some (displayName tenant) /\
  own_property fields "emailSignInConfig"
    = Some (EmailSignInConfig_toJSON (emailSignInConfig tenant)) /\
  own_property fields "anonymousSignInEnabled"
    = Some (JBool (anonymousSignInEnabled tenant)).
Proof.
  rewrite toJSON_properties. intros [= <-].
  repeat split; try reflexivity.
  cbn [app own_property String.eqb Ascii.eqb Bool.eqb].
  rewrite own_property_app, own_property_kept_ne by discriminate. reflexivity.
Qed.

(** X23: the JSON of a tenant holds no optional property that reads as
    [undefined]: each of its properties is one of the four fixed ones or one
    of the six optional ones with a defined value. *)
Theorem toJSON_no_undefined_optional
    (tenant : Tenant) (fields : list (string * JsValue)) (key : string) (v : JsValue) :
  toJSON tenant = JObj fields ->
  own_property fields key = Some v ->
  In key ["tenantId"; "displayName"; "emailSignInConfig"; "anonymousSignInEnabled"] \/
  (In key optional_json_keys /\ is_defined v = true).
Proof.
  rewrite toJSON_properties. intros [= <-].
  cbn [app own_property].
  destruct (String.eqb_spec "tenantId" key) as [<-|_]; [simpl; auto|].
  destruct (String.eqb_spec "displayName" key) as [<-|_]; [simpl; auto|].
  destruct (String.eqb_spec "emailSignInConfig" key) as [<-|_]; [simpl; auto|].
  rewrite own_property_app.
  destruct (own_property (kept "multiFactorConfig" _) key) eqn:H1.
  { intros [= ->]. apply own_property_kept in H1 as (-> & -> & ?). right. simpl. auto. }
  cbn [app own_property].
  destruct (String.eqb_spec "anonymousSignInEnabled" key) as [<-|_]; [simpl; auto 6|].
  rewrite own_property_app.
  destruct (own_property (kept "testPhoneNumbers" _) key) eqn:H2.
  { intros [= ->]. apply own_property_kept in H2 as (-> & -> & ?). right. simpl. auto. }
  rewrite own_property_app.
  destruct (own_property (kept "smsRegionConfig" _) key) eqn:H3.
  { intros [= ->]. apply own_property_kept in H3 as (-> & -> & ?). right. simpl. auto. }
  rewrite own_property_app.
  destruct (own_property (kept "recaptchaConfig" _) key) eqn:H4.
  { intros [= ->]. apply own_property_kept in H4 as (-> & -> & ?). right. simpl. auto 6. }
  rewrite own_property_app.
  destruct (own_property (kept "passwordPolicyConfig" _) key) eqn:H5.
  { intros [= ->]. apply own_property_kept in H5 as (-> & -> & ?). right. simpl. auto 7. }
  intros H6. apply own_property_kept in H6 as (-> & -> & ?). right. simpl. auto 8.
Qed.

(** Passes the properties of other keys in a lookup. *)
Ltac skip_properties :=
  repeat first
    [ rewrite own_property_app, own_property_kept_ne by discriminate
    | rewrite own_property_kept_ne by discriminate
    | progress cbn [app own_property String.eqb Ascii.eqb Bool.eqb] ].

(** X24: from the server response to the JSON: the tenant built from a
    response serializes with the tenant id read from its resource name, its
    [displayName] and the truth value of [enableAnonymousUser]; an optional
    part that the response does not have is absent from the JSON, for the
    copied parts provided that [deepCopy] gives [undefined] for
    [undefined]. *)
Theorem Tenant_toJSON_of_response
    (response : JsValue) (resourceName : string) (tenant : Tenant)
    (fields : list (string * JsValue)) :
  get response "name" = JStr resourceName ->
  Tenant_new response = Return tenant ->
  toJSON tenant = JObj fields ->
  (exists tid,
     getTenantIdFromResourceName resourceName = Some tid /\
     own_property fields "tenantId" = Some (JStr tid)) /\
  own_property fields "displayName" = Some (get response "displayName") /\
  own_property fields "anonymousSignInEnabled"
    = Some (JBool (truthy (get response "enableAnonymousUser"))) /\
  (is_defined (get response "mfaConfig") = false ->
   own_property fields "multiFactorConfig" = None) /\
  (is_defined (get response "testPhoneNumbers") = false ->
   own_property fields "testPhoneNumbers" = None) /\
  (deepCopy JUndefined = JUndefined ->
   (is_defined (get response "smsRegionConfig") = false ->
    own_property fields "smsRegionConfig" = None) /\
   (is_defined (get response "recaptchaConfig") = false ->
    own_property fields "recaptchaConfig" = None) /\
   (is_defined (get response "passwordPolicyConfig") = false ->
    own_property fields "passwordPolicyConfig" = None) /\
   (is_defined (get response "emailPrivacyConfig") = false ->
    own_property fields "emailPrivacyConfig" = None)).
Proof.
  intros Hname Hnew Hjson.
  rewrite (Tenant_new_outcome _ _ _ _ _ _ _ _ _ _ _ Hname) in Hnew.
  destruct (getTenantIdFromResourceName resourceName) as [tid|]; [|discriminate].
  destruct (String.eqb tid ""); [discriminate|].
  pose proof (Tenant_fields_of_response tid response tenant Hnew)
    as (Hid & Hdn & Hanon & _ & Htpn & _ & _ & Hmfa & Hrc & Hpp & Hsms & Hep).
  destruct (toJSON_fixed_properties tenant fields Hjson) as (Jid & Jdn & _ & Janon).
  rewrite toJSON_properties in Hjson. injection Hjson as <-.
  split; [exists tid; rewrite <- Hid; auto|].
  split; [rewrite <- Hdn; exact Jdn|].
  split; [rewrite <- Hanon; exact Janon|].
  assert (Hskip : forall (k : string) (value : JsValue) (rest : list (string * JsValue)),
             own_property (kept k value ++ rest) k =
               if is_defined value then Some value else own_property rest k).
  { intros k value rest. destruct (is_defined value); simpl; [|reflexivity].
    rewrite String.eqb_refl. reflexivity. }
  assert (Hlast : forall (k : string) (value : JsValue),
             own_property (kept k value) k = if is_defined value then Some value else None).
  { intros k value. destruct (is_defined value); simpl; [|reflexivity].
    rewrite String.eqb_refl. reflexivity. }
  split.
  { intros Hd. apply Hmfa in Hd. skip_properties.
    rewrite Hskip, Hd. simpl. skip_properties. reflexivity. }
  split.
  { intros Hd. apply Htpn in Hd. skip_properties.
    rewrite Hskip, Hd. simpl. skip_properties. reflexivity. }
  intros Hcopy. repeat split; intros Hd.
  - apply Hsms in Hd. skip_properties.
    rewrite Hskip, Hd. simpl. rewrite Hcopy. simpl. skip_properties. reflexivity.
  - apply Hrc in Hd. skip_properties.
    rewrite Hskip, Hd. simpl. rewrite Hcopy. simpl. skip_properties. reflexivity.
  - apply Hpp in Hd. skip_properties.
    rewrite Hskip, Hd. simpl. rewrite Hcopy. simpl. skip_properties. reflexivity.
  - apply Hep in Hd. skip_properties.
    rewrite Hlast, Hd. simpl. rewrite Hcopy. reflexivity.
Qed.

End TenantCoverage.

(** ** The theorems on the sample collaborators *)

Import AuthSamples.

Local Abbreviation sample_buildServerRequest :=
  (buildServerRequest sample_EmailSignInConfig_buildServerRequest build_as_is accept
     accept build_as_is build_as_is accept).
Local Abbreviation sample_validate :=
  (validate sample_EmailSignInConfig_buildServerRequest build_as_is accept
     accept build_as_is build_as_is accept).
Local Abbreviation sample_Tenant_init :=
  (Tenant_init JsValue JsValue JsValue JsValue (require_field "allowPasswordSignup")
     (require_field "state") keep keep (fun v => v)).
Local Abbreviation sample_Tenant_new :=
  (Tenant_new JsValue JsValue JsValue JsValue (require_field "allowPasswordSignup")
     (require_field "state") keep keep (fun v => v)).
Local Abbreviation sample_toJSON :=
  (toJSON JsValue JsValue JsValue JsValue (fun v => v) (fun v => v) (fun v => v)
     (fun v => v) (fun v => v)).

Lemma buildServerRequest_rejects_non_object_witness :
  sample_buildServerRequest (JArr [JStr "displayName"]) true =
    invalid_argument
      (quote +:+ "CreateTenantRequest" +:+ quote +:+ " must be a valid non-null object.").
Proof.
  apply (buildServerRequest_rejects_non_object sample_EmailSignInConfig_buildServerRequest
           build_as_is accept accept build_as_is build_as_is accept
           (JArr [JStr "displayName"]) true eq_refl).
Defined.


Lemma validate_rejects_bad_displayName_witness :
  sample_buildServerRequest (JObj [("displayName", JStr "")]) false =
    invalid_argument
      (quote +:+ "UpdateTenantRequest.displayName" +:+ quote +:+
       " must be a valid non-empty string.").
Proof.
  apply (validate_rejects_bad_displayName sample_EmailSignInConfig_buildServerRequest
           build_as_is accept accept build_as_is build_as_is accept
           (JObj [("displayName", JStr "")]) false eq_refl eq_refl eq_refl eq_refl).
Defined.

Lemma create_and_update_agree_witness :
  sample_buildServerRequest full_update true = sample_buildServerRequest full_update false.
Proof.
  apply (create_and_update_agree sample_EmailSignInConfig_buildServerRequest
           build_as_is accept accept build_as_is build_as_is accept full_update).
  - discriminate.
  - reflexivity.
Defined.

Lemma buildServerRequest_given_options_witness :
  exists request : gmap string JsValue,
    sample_buildServerRequest full_update false = Return request /\
    request !! "displayName" = Some (JStr "acme") /\
    request !! "enableAnonymousUser" = Some (JBool true) /\
    request !! "testPhoneNumbers" = Some (JObj [("+16505551234", JStr "123456")]).
Proof.
  destruct (buildServerRequest_returns sample_EmailSignInConfig_buildServerRequest
              build_as_is accept accept build_as_is build_as_is accept
              full_update false eq_refl) as [request Hreq].
  exists request. split; [exact Hreq|].
  destruct (buildServerRequest_given_options sample_EmailSignInConfig_buildServerRequest
              build_as_is accept accept build_as_is build_as_is accept
              full_update false request Hreq) as (Hname & Hanonymous & _ & Hphones & _).
  split; [apply Hname; reflexivity|].
  split; [apply Hanonymous; reflexivity | apply Hphones; reflexivity].
Defined.

Lemma buildServerRequest_other_keys_witness :
  exists request : gmap string JsValue,
    sample_buildServerRequest clearing_update false = Return request /\
    request !! "mfaConfig" = None /\
    request !! "allowPasswordSignup" = None.
Proof.
  destruct (buildServerRequest_returns sample_EmailSignInConfig_buildServerRequest
              build_as_is accept accept build_as_is build_as_is accept
              clearing_update false eq_refl) as [request Hreq].
  exists request. split; [exact Hreq|].
  destruct (buildServerRequest_other_keys sample_EmailSignInConfig_buildServerRequest
              build_as_is accept accept build_as_is build_as_is accept
              clearing_update false request Hreq) as (base & Hbase & Hkeys).
  simpl in Hbase. subst base.
  split; (rewrite Hkeys; [apply lookup_empty|]); intros Hin; simpl in Hin.
  - reflexivity.
  - repeat (destruct Hin as [Hin|Hin]; [discriminate Hin|]). contradiction.
Defined.

Lemma getTenantIdFromResourceName_of_resource_name_witness :
  getTenantIdFromResourceName "projects/project1/tenants/tenant1" = Some "tenant1".
Proof.
  apply (getTenantIdFromResourceName_of_resource_name "project1" "tenant1");
    [reflexivity | discriminate | reflexivity].
Defined.

Lemma getTenantIdFromResourceName_project_named_tenants_witness :
  getTenantIdFromResourceName "projects/tenants/tenants/tenant1" = Some "tenants/tenant1".
Proof.
  apply (getTenantIdFromResourceName_project_named_tenants "tenant1"). reflexivity.
Defined.

Lemma Tenant_email_sign_in_fallback_witness :
  exists tenant,
    sample_Tenant_init "tenant1" bare_response = Return tenant /\
    require_field "allowPasswordSignup" (JObj [("allowPasswordSignup", JBool false)])
    = Return (emailSignInConfig JsValue JsValue JsValue JsValue tenant).
Proof.
  eexists. split; [reflexivity|].
  exact (Tenant_email_sign_in_fallback JsValue JsValue JsValue JsValue
           (require_field "allowPasswordSignup") (require_field "state") keep keep
           (fun v => v) "tenant1" bare_response _ eq_refl).
Defined.

Lemma Tenant_fields_of_response_witness :
  exists tenant,
    sample_Tenant_init "tenant1" bare_response = Return tenant /\
    anonymousSignInEnabled JsValue JsValue JsValue JsValue tenant = false /\
    testPhoneNumbers JsValue JsValue JsValue JsValue tenant = Some (JObj []).
Proof.
  eexists. split; [reflexivity|].
  destruct (Tenant_fields_of_response JsValue JsValue JsValue JsValue
              (require_field "allowPasswordSignup") (require_field "state") keep keep
              (fun v => v) "tenant1" bare_response _ eq_refl)
    as (_ & _ & _ & Hanonymous & _ & Hphones & _).
  split; [apply Hanonymous; reflexivity | apply Hphones; reflexivity].
Defined.

Lemma toJSON_fixed_properties_witness :
  sample_Tenant_new tenant_response = Return sample_tenant /\
  sample_toJSON sample_tenant = JObj sample_tenant_json /\
  own_property sample_tenant_json "tenantId" = Some (JStr "tenant1") /\
  own_property sample_tenant_json "anonymousSignInEnabled" = Some (JBool false).
Proof.
  split; [reflexivity|]. split; [reflexivity|].
  destruct (toJSON_fixed_properties JsValue JsValue JsValue JsValue (fun v => v)
              (fun v => v) (fun v => v) (fun v => v) (fun v => v)
              sample_tenant sample_tenant_json eq_refl)
    as (Hid & _ & _ & Hanonymous).
  split; [exact Hid | exact Hanonymous].
Defined.

Lemma toJSON_no_undefined_optional_witness :
  In "displayName"
     ["tenantId"; "displayName"; "emailSignInConfig"; "anonymousSignInEnabled"] \/
  In "displayName" optional_json_keys /\ is_defined (JStr "acme") = true.
Proof.
  apply (toJSON_no_undefined_optional JsValue JsValue JsValue JsValue (fun v => v)
           (fun v => v) (fun v => v) (fun v => v) (fun v => v)
           sample_tenant sample_tenant_json "displayName" (JStr "acme") eq_refl eq_refl).
Defined.

Lemma Tenant_toJSON_of_response_witness :
  own_property sample_tenant_json "displayName" = Some (JStr "acme") /\
  own_property sample_tenant_json "multiFactorConfig" = None /\
  own_property sample_tenant_json "smsRegionConfig" = None.
Proof.
  destruct (Tenant_toJSON_of_response JsValue JsValue JsValue JsValue
              (require_field "allowPasswordSignup") (require_field "state") keep keep
              (fun v => v) (fun v => v) (fun v => v) (fun v => v) (fun v => v)
              tenant_response "projects/project1/tenants/tenant1"
              sample_tenant sample_tenant_json eq_refl eq_refl eq_refl)
    as (_ & Hname & _ & Hmfa & _ & Hcopied).
  split; [exact Hname|]. split; [apply Hmfa; reflexivity|].
  apply Hcopied; reflexivity.
Defined.

End AuthCoverage.
